(** * Account REST API service: the route handlers of [service/routes.py]

    A shallow embedding of the Flask handlers (health, index, create, list,
    read, update, delete and the content-type check) together with the parts
    of the service they call: the status constants, the [Account] model with
    its persistence accessor, and the error handlers.  The handlers are the
    Python functions written in a state-and-exception monad over the table of
    accounts. *)

From Stdlib Require Import ZArith List String Ascii Bool Lia PeanoNat.
From Stdlib Require Import DecimalString DecimalZ.
Import ListNotations.

Local Open Scope string_scope.
Local Open Scope Z_scope.

Set Warnings "-register-all,-abstract-large-number".

(** ** JSON values and Python dictionaries *)

(** What [request.get_json()] yields and what [jsonify] is given.  A Python
    [dict] with string keys is the [JObj] list of its items. *)
Inductive json : Type :=
| JNull
| JBool (b : bool)
| JNum (n : Z)
| JStr (s : string)
| JArr (items : list json)
| JObj (members : list (string * json)).

Fixpoint assoc (key : string) (members : list (string * json)) : option json :=
  match members with
  | [] => None
  | (k, v) :: rest => if String.eqb k key then Some v else assoc key rest
  end.

(** [data[key]] / [data.get(key)]: [None] when the key is missing (and when
    [data] is not a dictionary at all). *)
Definition get (key : string) (data : json) : option json :=
  match data with
  | JObj members => assoc key members
  | _ => None
  end.

(** [str(n)] for a Python [int]. *)
Definition str_int (n : Z) : string := NilZero.string_of_int (Z.to_int n).

(** [needle in hay] for Python strings. *)
Fixpoint occurs_in (needle hay : string) : bool :=
  String.prefix needle hay ||
  match hay with
  | EmptyString => false
  | String _ rest => occurs_in needle rest
  end.

(** ** Calendar dates ([datetime.date]) *)

Record date : Type := mkDate { year : nat; month : nat; day : nat }.

Definition is_leap (y : nat) : bool :=
  ((y mod 4 =? 0) && (negb (y mod 100 =? 0) || (y mod 400 =? 0)))%nat.

Definition days_in_month (y m : nat) : nat :=
  match m with
  | 2%nat => if is_leap y then 29 else 28
  | 4%nat | 6%nat | 9%nat | 11%nat => 30
  | _ => 31
  end.

Definition valid_date (d : date) : bool :=
  ((1 <=? year d) && (year d <=? 9999) &&
   (1 <=? month d) && (month d <=? 12) &&
   (1 <=? day d) && (day d <=? days_in_month (year d) (month d)))%nat.

Definition digit_char (n : nat) : ascii := ascii_of_nat (48 + n).

Definition digit (c : ascii) : option nat :=
  let n := nat_of_ascii c in
  if ((48 <=? n) && (n <=? 57))%nat then Some (n - 48)%nat else None.

Definition pad2 (n : nat) : string :=
  String (digit_char (n / 10)) (String (digit_char (n mod 10)) EmptyString).

Definition pad4 (n : nat) : string := pad2 (n / 100) ++ pad2 (n mod 100).

(** [d.isoformat()]: YYYY-MM-DD. *)
Definition isoformat (d : date) : string :=
  pad4 (year d) ++ "-" ++ pad2 (month d) ++ "-" ++ pad2 (day d).

Definition number2 (a b : ascii) : option nat :=
  match digit a, digit b with
  | Some x, Some y => Some (10 * x + y)%nat
  | _, _ => None
  end.

Definition number4 (a b c e : ascii) : option nat :=
  match number2 a b, number2 c e with
  | Some x, Some y => Some (100 * x + y)%nat
  | _, _ => None
  end.

(** [date.fromisoformat(s)] on the YYYY-MM-DD form; [None] is its
    [ValueError]. *)
Definition fromisoformat (s : string) : option date :=
  match s with
  | String y1 (String y2 (String y3 (String y4 (String s1
      (String m1 (String m2 (String s2
        (String d1 (String d2 EmptyString))))))))) =>
      if Ascii.eqb s1 "-" && Ascii.eqb s2 "-" then
        match number4 y1 y2 y3 y4, number2 m1 m2, number2 d1 d2 with
        | Some y, Some m, Some d =>
            let r := mkDate y m d in
            if valid_date r then Some r else None
        | _, _, _ => None
        end
      else None
  | _ => None
  end.

(** ** HTTP status codes *)

(** Modelled from the spec: [service/common/status.py] is not among the
    sources; the codes are those of the interface table. *)
Module status.
Definition HTTP_200_OK : Z := 200.
Definition HTTP_201_CREATED : Z := 201.
Definition HTTP_204_NO_CONTENT : Z := 204.
Definition HTTP_400_BAD_REQUEST : Z := 400.
Definition HTTP_404_NOT_FOUND : Z := 404.
Definition HTTP_405_METHOD_NOT_ALLOWED : Z := 405.
Definition HTTP_415_UNSUPPORTED_MEDIA_TYPE : Z := 415.
End status.

(** ** Exceptions and results *)

(** What a handler can raise: [abort(code)] / [abort(code, description)]
    raises the framework's HTTP exception; [Account.deserialize] raises
    [DataValidationError]. *)
Inductive error : Type :=
| HTTPException (code : Z) (description : option string)
| DataValidationError (message : string).

Inductive res (A : Type) : Type :=
| Ok (a : A)
| Err (e : error).
Arguments Ok {A} a.
Arguments Err {A} e.

(** ** The Account model *)

Record Account : Type := mkAccount {
  id : option Z;
  name : string;
  email : string;
  address : string;
  phone_number : string;
  date_joined : date
}.

(** The table of accounts behind the persistence accessor: the rows in
    insertion order and the next value of the key sequence. *)
Record Store : Type := mkStore {
  rows : list Account;
  next_id : Z
}.

Definition empty_store : Store := mkStore [] 1.

(** Modelled from the spec: [Account()] of [service/models.py], a blank
    record not yet persisted; every field but [id] is set by [deserialize]. *)
Definition Account_new (today : date) : Account :=
  mkAccount None EmptyString EmptyString EmptyString EmptyString today.

Definition required_string (key : string) (data : json) : res string :=
  match get key data with
  | Some (JStr s) => Ok s
  | Some _ => Err (DataValidationError ("Invalid Account: bad value for " ++ key))
  | None => Err (DataValidationError ("Invalid Account: missing " ++ key))
  end.

(** [phone_number]: a string, a number being taken as its string form. *)
Definition required_phone (data : json) : res string :=
  match get "phone_number" data with
  | Some (JStr s) => Ok s
  | Some (JNum n) => Ok (str_int n)
  | Some _ => Err (DataValidationError "Invalid Account: bad value for phone_number")
  | None => Err (DataValidationError "Invalid Account: missing phone_number")
  end.

(** [date_joined]: an ISO date, the creation date when absent. *)
Definition optional_date (data : json) (today : date) : res date :=
  match get "date_joined" data with
  | None => Ok today
  | Some (JStr s) =>
      match fromisoformat s with
      | Some d => Ok d
      | None => Err (DataValidationError "Invalid Account: bad value for date_joined")
      end
  | Some _ => Err (DataValidationError "Invalid Account: bad value for date_joined")
  end.

(** Modelled from the spec: [Account.deserialize] of [service/models.py].
    It parses the body into the account: [name], [email], [address] and
    [phone_number] are required, [date_joined] defaults to the creation date,
    the [id] is never taken from the body, and a missing or malformed field
    is a validation error. *)
Definition deserialize (self : Account) (data : json) (today : date) : res Account :=
  match required_string "name" data with
  | Err e => Err e
  | Ok n =>
  match required_string "email" data with
  | Err e => Err e
  | Ok m =>
  match required_string "address" data with
  | Err e => Err e
  | Ok a =>
  match required_phone data with
  | Err e => Err e
  | Ok p =>
  match optional_date data today with
  | Err e => Err e
  | Ok d => Ok (mkAccount (id self) n m a p d)
  end end end end end.

(** Modelled from the spec: [Account.serialize] of [service/models.py], the
    field names of the data model, [date_joined] as an ISO string. *)
Definition serialize (self : Account) : json :=
  JObj [ ("id", match id self with Some k => JNum k | None => JNull end);
         ("name", JStr (name self));
         ("email", JStr (email self));
         ("address", JStr (address self));
         ("phone_number", JStr (phone_number self));
         ("date_joined", JStr (isoformat (date_joined self))) ].

(** ** The persistence accessor *)

(** Handlers run against the table and may raise: a computation takes the
    table and gives a value or an exception, and the table it leaves. *)
Definition M (A : Type) : Type := Store -> res A * Store.

Definition ret {A} (a : A) : M A := fun st => (Ok a, st).

Definition raise {A} (e : error) : M A := fun st => (Err e, st).

Definition bind {A B} (c : M A) (k : A -> M B) : M B :=
  fun st =>
    match c st with
    | (Ok a, st') => k a st'
    | (Err e, st') => (Err e, st')
    end.

Definition lift {A} (r : res A) : M A := fun st => (r, st).

Notation "x <- c ;; k" := (bind c (fun x => k))
  (at level 61, c at next level, right associativity).
Notation "c ;;; k" := (bind c (fun _ => k))
  (at level 61, right associativity).

(** [abort(code)] and [abort(code, description)]. *)
Definition abort {A} (code : Z) (description : option string) : M A :=
  raise (HTTPException code description).

Definition has_id (k : Z) (a : Account) : bool :=
  match id a with
  | Some j => j =? k
  | None => false
  end.

Definition set_id (k : Z) (a : Account) : Account :=
  mkAccount (Some k) (name a) (email a) (address a) (phone_number a)
    (date_joined a).

Module Accounts.

(** Modelled from the spec: [Account.find] of [service/models.py], the
    lookup by id; [None] when no row has the id. *)
Definition find (k : Z) : M (option Account) :=
  fun st => (Ok (List.find (has_id k) (rows st)), st).

(** Modelled from the spec: [Account.all] of [service/models.py], every
    persisted account, in order. *)
Definition all : M (list Account) :=
  fun st => (Ok (rows st), st).

(** Modelled from the spec: [Account.create] of [service/models.py]; the
    persistence layer assigns the next id and stores the record. *)
Definition create (self : Account) : M Account :=
  fun st =>
    let self' := set_id (next_id st) self in
    (Ok self', mkStore (rows st ++ [self']) (next_id st + 1)).

(** Modelled from the spec: [Account.update] of [service/models.py]; the
    row of the account's id is replaced in place. *)
Definition update (self : Account) : M unit :=
  fun st =>
    (Ok tt,
     mkStore
       (map (fun r => match id self with
                      | Some k => if has_id k r then self else r
                      | None => r
                      end) (rows st))
       (next_id st)).

(** Modelled from the spec: [Account.delete] of [service/models.py]; the
    row of the account's id is removed. *)
Definition delete (self : Account) : M unit :=
  fun st =>
    (Ok tt,
     mkStore
       (filter (fun r => match id self with
                         | Some k => negb (has_id k r)
                         | None => true
                         end) (rows st))
       (next_id st)).

End Accounts.

(** ** Requests and responses *)

(** What the handlers read of the current request: the Content-Type header
    as sent ([request.headers.get("Content-Type")], [None] when there is
    none) and the body as JSON, [None] when the framework cannot read the
    body as JSON. *)
Record request : Type := mkRequest {
  content_type_header : option string;
  json_body : option json
}.

(** [request.get_json()]: the parsed body; the framework raises its
    bad-request exception when there is none. *)
Definition get_json (request : request) : M json :=
  match json_body request with
  | Some data => ret data
  | None => raise (HTTPException status.HTTP_400_BAD_REQUEST None)
  end.

Inductive body : Type :=
| JsonBody (j : json)
| TextBody (s : string).

Record response : Type := mkResponse {
  response_body : body;
  status_code : Z;
  headers : list (string * string)
}.

Definition jsonify (j : json) : body := JsonBody j.

Definition make_response (b : body) (code : Z) (hs : list (string * string)) : response :=
  mkResponse b code hs.

(** ** The routes *)

Import status.

(** [GET /health] *)
Definition health : M response :=
  ret (make_response (jsonify (JObj [("status", JStr "OK")])) HTTP_200_OK []).

(** [GET /] *)
Definition index : M response :=
  ret (make_response
         (jsonify (JObj [("name", JStr "Account REST API Service");
                         ("version", JStr "1.0")]))
         HTTP_200_OK []).

(** [check_content_type(media_type)] *)
Definition check_content_type (media_type : string) (request : request) : M unit :=
  match content_type_header request with
  | Some content_type =>
      if negb (String.eqb content_type EmptyString) && String.eqb content_type media_type
      then ret tt
      else abort HTTP_415_UNSUPPORTED_MEDIA_TYPE
             (Some ("Content-Type must be " ++ media_type))
  | None =>
      abort HTTP_415_UNSUPPORTED_MEDIA_TYPE
        (Some ("Content-Type must be " ++ media_type))
  end.

(** [POST /accounts] *)
Definition create_accounts (today : date) (request : request) : M response :=
  check_content_type "application/json" request ;;;
  data <- get_json request ;;
  account <- lift (deserialize (Account_new today) data today) ;;
  account <- Accounts.create account ;;
  let message := serialize account in
  let location_url := "/" in
  ret (make_response (jsonify message) HTTP_201_CREATED
         [("Location", location_url)]).

(** [GET /accounts] *)
Definition list_accounts : M response :=
  all_accounts <- Accounts.all ;;
  let all_accounts := map serialize all_accounts in
  ret (make_response (jsonify (JArr all_accounts)) HTTP_200_OK []).

(** [bool(search_result)] on what the lookup returned. *)
Definition truthy (search_result : option Account) : bool :=
  match search_result with
  | Some _ => true
  | None => false
  end.

(** [GET /accounts/<id>]; [id] is the integer key named by the path. *)
Definition read_account (id : Z) : M response :=
  search_result <- Accounts.find id ;;
  let was_found := truthy search_result in
  let status_code := if was_found then HTTP_200_OK else HTTP_404_NOT_FOUND in
  let response_body :=
    match search_result with
    | Some found => serialize found
    | None => JObj []
    end in
  (if negb was_found
   then abort status_code
          (Some ("Account with id " ++ str_int id ++ " could not be found :("))
   else ret tt) ;;;
  ret (make_response (jsonify response_body) status_code []).

(** [PUT /accounts/<id>].  [search_result.deserialize(...)] fills the found
    object in place; here the filled record is the one handed on to
    [update()], which is what writes it to the table. *)
Definition update_accounts (today : date) (id : Z) (request : request) : M response :=
  search_result <- Accounts.find id ;;
  let was_found := truthy search_result in
  let status_code := if was_found then HTTP_200_OK else HTTP_404_NOT_FOUND in
  match search_result with
  | Some found =>
      data <- get_json request ;;
      found <- lift (deserialize found data today) ;;
      Accounts.update found ;;;
      ret (make_response (jsonify (serialize found)) status_code [])
  | None => abort status_code None
  end.

(** [DELETE /accounts/<id>] *)
Definition delete_account (id : Z) : M response :=
  search_result <- Accounts.find id ;;
  match search_result with
  | Some found => Accounts.delete found
  | None => ret tt
  end ;;;
  ret (make_response (TextBody EmptyString) HTTP_204_NO_CONTENT []).

(** ** Error handlers *)

(** The description the framework gives an HTTP exception raised without one
    (werkzeug's text for the status). *)
Definition default_description (code : Z) : string :=
  if code =? 400 then
    "The browser (or proxy) sent a request that this server could not understand."
  else if code =? 404 then
    "The requested URL was not found on the server. If you entered the URL manually please check your spelling and try again."
  else if code =? 405 then
    "The method is not allowed for the requested URL."
  else if code =? 415 then
    "The server does not support the media type transmitted in the request."
  else "Unknown Error".

Definition error_status (e : error) : Z :=
  match e with
  | HTTPException code _ => code
  | DataValidationError _ => HTTP_400_BAD_REQUEST
  end.

Definition error_message (e : error) : string :=
  match e with
  | HTTPException code (Some description) => description
  | HTTPException code None => default_description code
  | DataValidationError message => message
  end.

(** Modelled from the spec: the handlers of [service/common/error_handlers.py];
    every error is surfaced as its HTTP status and a message, a validation
    error as 400. *)
Definition handle (r : res response) : response :=
  match r with
  | Ok resp => resp
  | Err e =>
      make_response
        (jsonify (JObj [("status", JNum (error_status e));
                        ("message", JStr (error_message e))]))
        (error_status e) []
  end.

(** One request served against the table: the response sent and the table
    left behind. *)
Definition serve (handler : M response) (st : Store) : response * Store :=
  let (r, st') := handler st in (handle r, st').

(** ** Notions the properties are stated with *)

(** The account persisted under an id, if any. *)
Definition persisted (k : Z) (st : Store) : option Account :=
  List.find (has_id k) (rows st).

(** Every row carries an id the key sequence has already given out, and the
    sequence gives out positive ids. *)
Definition store_wf (st : Store) : bool :=
  forallb (fun a => match id a with
                    | Some k => (0 <? k) && (k <? next_id st)
                    | None => false
                    end) (rows st)
  && (0 <? next_id st).

Definition required_fields : list string :=
  ["name"; "email"; "address"; "phone_number"].

(** A valid Account payload: a JSON object with the fields of the data
    model, [name], [email] and [address] strings, [phone_number] a string or
    a number, [date_joined] an ISO date when it is given. *)
Definition valid_payload (data : json) : bool :=
  match get "name" data, get "email" data, get "address" data with
  | Some (JStr _), Some (JStr _), Some (JStr _) =>
      match get "phone_number" data with
      | Some (JStr _) | Some (JNum _) =>
          match get "date_joined" data with
          | None => true
          | Some (JStr s) =>
              match fromisoformat s with Some _ => true | None => false end
          | Some _ => false
          end
      | _ => false
      end
  | _, _, _ => false
  end.

(** The string a phone number given as a number is kept as. *)
Definition phone_text (j : json) : json :=
  match j with
  | JNum n => JStr (str_int n)
  | _ => j
  end.

(** A serialized account [shown] carries the field values of the payload
    [data]: each field as given, a numeric phone number as its string, and
    the creation date for a [date_joined] that was not given. *)
Definition reflects (data : json) (today : date) (shown : json) : Prop :=
  get "name" shown = get "name" data /\
  get "email" shown = get "email" data /\
  get "address" shown = get "address" data /\
  get "phone_number" shown = option_map phone_text (get "phone_number" data) /\
  get "date_joined" shown =
    match get "date_joined" data with
    | Some j => Some j
    | None => Some (JStr (isoformat today))
    end.

(** A request as the test client sends it with [json=data]. *)
Definition json_request (data : json) : request :=
  mkRequest (Some "application/json") (Some data).

(** Several creations in a row. *)
Fixpoint post_all (today : date) (requests : list request) (st : Store)
  : list response * Store :=
  match requests with
  | [] => ([], st)
  | r :: rest =>
      let (resp, st1) := serve (create_accounts today r) st in
      let (resps, st2) := post_all today rest st1 in
      (resp :: resps, st2)
  end.

Definition header (key : string) (resp : response) : option string :=
  option_map snd
    (List.find (fun kv => String.eqb (fst kv) key) (headers resp)).

(** What the content-type check of a creation raises. *)
Definition unsupported_media_type : error :=
  HTTPException 415 (Some "Content-Type must be application/json").

(** The four ways a creation can go. *)
Inductive create_outcome (today : date) (req : request) (st : Store)
  : res response * Store -> Prop :=
| created data acc :
    content_type_header req = Some "application/json" ->
    json_body req = Some data ->
    deserialize (Account_new today) data today = Ok acc ->
    create_outcome today req st
      (Ok (mkResponse (JsonBody (serialize (set_id (next_id st) acc))) 201
             [("Location", "/")]),
       mkStore (rows st ++ [set_id (next_id st) acc]) (next_id st + 1))
| rejected_media_type :
    content_type_header req <> Some "application/json" ->
    create_outcome today req st (Err unsupported_media_type, st)
| rejected_body :
    content_type_header req = Some "application/json" ->
    json_body req = None ->
    create_outcome today req st (Err (HTTPException 400 None), st)
| rejected_payload data msg :
    content_type_header req = Some "application/json" ->
    json_body req = Some data ->
    deserialize (Account_new today) data today = Err (DataValidationError msg) ->
    create_outcome today req st (Err (DataValidationError msg), st).

(** The payloads of the test suite. *)
Definition rofrano : json :=
  JObj [ ("name", JStr "Rofrano");
         ("email", JStr "rofrano@example.com");
         ("address", JStr "123 Main St");
         ("phone_number", JStr "555-1234");
         ("date_joined", JStr "2022-01-01") ].

Definition jeronimo : json :=
  JObj [ ("id", JNum 1);
         ("name", JStr "Jeronimo");
         ("email", JStr "rofrano@example.com");
         ("address", JStr "123 Main St");
         ("phone_number", JNum 42);
         ("date_joined", JStr "2022-01-01") ].

Definition a_day : date := mkDate 2023 3 14.

(** The table after the example payload has been created on the empty
    table: one account, under id 1. *)
Definition one_account : Store :=
  snd (serve (create_accounts a_day (json_request rofrano)) empty_store).

Definition rofrano_account : Account :=
  mkAccount (Some 1) "Rofrano" "rofrano@example.com" "123 Main St" "555-1234"
    (mkDate 2022 1 1).

(** ** Routing *)

(** The request methods the routes are declared for, and [PATCH] for one
    that no route takes.  ([HEAD] and [OPTIONS], which the framework answers
    by itself, are not modelled.) *)
Inductive method : Type := GET | POST | PUT | DELETE | PATCH.

(** The paths of the [@app.route] decorators. *)
Inductive path : Type :=
| Root
| Health
| AccountsPath
| AccountPath (id : Z).

(** The routing table: each decorator of [routes.py] with its [methods]
    (GET when none are given); any other method on one of these paths is
    the framework's method-not-allowed abort. *)
Definition route (today : date) (m : method) (p : path) (request : request)
  : M response :=
  match p, m with
  | Health, GET => health
  | Root, GET => index
  | AccountsPath, POST => create_accounts today request
  | AccountsPath, GET => list_accounts
  | AccountPath id, GET => read_account id
  | AccountPath id, PUT => update_accounts today id request
  | AccountPath id, DELETE => delete_account id
  | _, _ => abort HTTP_405_METHOD_NOT_ALLOWED None
  end.

(** One request to the service: the day it arrives, its method, path,
    headers and body. *)
Record call : Type := mkCall {
  call_date : date;
  call_method : method;
  call_path : path;
  call_request : request
}.

(** A sequence of requests served one after the other. *)
Fixpoint run (calls : list call) (st : Store) : list response * Store :=
  match calls with
  | [] => ([], st)
  | c :: rest =>
      let (resp, st1) :=
        serve (route (call_date c) (call_method c) (call_path c)
                 (call_request c)) st in
      let (resps, st2) := run rest st1 in
      (resp :: resps, st2)
  end.

(** The ids in the table, row by row. *)
Definition ids (st : Store) : list (option Z) := map id (rows st).

(** The requests that can change the table: the three routes that call the
    persistence layer to write. *)
Definition writes (m : method) (p : path) : bool :=
  match p, m with
  | AccountsPath, POST => true
  | AccountPath _, PUT => true
  | AccountPath _, DELETE => true
  | _, _ => false
  end.

(** ** The helper of the test suite *)

(** [account.id = new_account["id"]] *)
Definition take_id (new_account : json) (account : Account) : option Account :=
  match get "id" new_account with
  | Some (JNum k) => Some (set_id k account)
  | Some JNull =>
      Some (mkAccount None (name account) (email account) (address account)
              (phone_number account) (date_joined account))
  | _ => None
  end.

(** [TestAccountService._create_accounts(count)]: each account the factory
    makes is posted with [json=account.serialize()], the response is
    asserted to be 201, and the account is returned with the id of the
    response.  [made] is what the factory gives at each round ([count] is
    its length); [None] is a failed assertion. *)
Fixpoint _create_accounts (today : date) (made : list Account) (st : Store)
  : option (list Account) * Store :=
  match made with
  | [] => (Some [], st)
  | account :: rest =>
      let (response, st1) :=
        serve (create_accounts today (json_request (serialize account))) st in
      if status_code response =? HTTP_201_CREATED then
        match response_body response with
        | JsonBody new_account =>
            match take_id new_account account with
            | Some account =>
                match _create_accounts today rest st1 with
                | (Some accounts, st2) => (Some (account :: accounts), st2)
                | (None, st2) => (None, st2)
                end
            | None => (None, st1)
            end
        | TextBody _ => (None, st1)
        end
      else (None, st1)
  end.

(** The accounts numbered from [k] on, in order. *)
Fixpoint number_from (k : Z) (accounts : list Account) : list Account :=
  match accounts with
  | [] => []
  | a :: rest => set_id k a :: number_from (k + 1) rest
  end.

(** * Properties *)

(** ** Dates: reading an ISO string and writing it back *)

Lemma digit_spec (c : ascii) (n : nat) :
  digit c = Some n -> (n < 10)%nat /\ digit_char n = c.
Proof.
  destruct c as [[] [] [] [] [] [] [] []]; vm_compute; intros H;
    try discriminate H; injection H as <-; split; (lia || reflexivity).
Qed.

Lemma number2_spec (a b : ascii) (n : nat) :
  number2 a b = Some n -> (n < 100)%nat /\ pad2 n = String a (String b EmptyString).
Proof.
  unfold number2, pad2.
  destruct (digit a) as [x|] eqn:Ha; [|discriminate].
  destruct (digit b) as [y|] eqn:Hb; [|discriminate].
  intros H.
  assert (n = (10 * x + y)%nat) as -> by congruence. clear H.
  apply digit_spec in Ha as [Hx <-], Hb as [Hy <-].
  assert (((10 * x + y) / 10 = x)%nat) as ->
    by (symmetry; apply (Nat.div_unique _ 10 x y); lia).
  assert (((10 * x + y) mod 10 = y)%nat) as ->
    by (symmetry; apply (Nat.mod_unique _ 10 x y); lia).
  split; [lia|reflexivity].
Qed.

Lemma number4_spec (a b c e : ascii) (n : nat) :
  number4 a b c e = Some n ->
  pad4 n = String a (String b (String c (String e EmptyString))).
Proof.
  unfold number4.
  destruct (number2 a b) as [x|] eqn:Hab; [|discriminate].
  destruct (number2 c e) as [y|] eqn:Hce; [|discriminate].
  intros H.
  assert (n = (100 * x + y)%nat) as -> by congruence. clear H.
  apply number2_spec in Hab as [Hx Hpx], Hce as [Hy Hpy].
  unfold pad4.
  assert (((100 * x + y) / 100 = x)%nat) as ->
    by (symmetry; apply (Nat.div_unique _ 100 x y); lia).
  assert (((100 * x + y) mod 100 = y)%nat) as ->
    by (symmetry; apply (Nat.mod_unique _ 100 x y); lia).
  now rewrite Hpx, Hpy.
Qed.

Lemma digit_digit_char (n : nat) : (n < 10)%nat -> digit (digit_char n) = Some n.
Proof.
  intros H. do 10 (destruct n as [|n]; [reflexivity|]). lia.
Qed.

Lemma number2_pad2 (n : nat) :
  (n < 100)%nat ->
  number2 (digit_char (n / 10)) (digit_char (n mod 10)) = Some n.
Proof.
  intros H. unfold number2.
  pose proof (Nat.div_mod_eq n 10) as E.
  pose proof (Nat.mod_upper_bound n 10 ltac:(discriminate)) as Hm.
  rewrite (digit_digit_char (n / 10)) by lia.
  rewrite (digit_digit_char (n mod 10)) by lia.
  f_equal. lia.
Qed.

Lemma days_in_month_bound (y m : nat) : (days_in_month y m <= 31)%nat.
Proof.
  unfold days_in_month.
  do 12 (destruct m as [|m]; [try destruct (is_leap y); lia|]). lia.
Qed.

(** The ISO form of a calendar date reads back as that date. *)
Lemma fromisoformat_isoformat (d : date) :
  valid_date d = true -> fromisoformat (isoformat d) = Some d.
Proof.
  intros Hv. pose proof Hv as Hv'. unfold valid_date in Hv'.
  repeat (apply andb_prop in Hv' as [Hv' ?]).
  repeat match goal with
         | H : (_ <=? _)%nat = true |- _ => apply Nat.leb_le in H
         end.
  assert (year d < 100 * 100)%nat as Hy.
  { apply Nat.le_lt_trans with (m := 9999%nat); [assumption|].
    apply Nat.ltb_lt. vm_compute. reflexivity. }
  assert (month d < 100)%nat as Hm by lia.
  assert (day d < 100)%nat as Hd
    by (pose proof (days_in_month_bound (year d) (month d)); lia).
  assert (year d / 100 < 100)%nat as Hc
    by (apply Nat.Div0.div_lt_upper_bound; lia).
  pose proof (Nat.mod_upper_bound (year d) 100 ltac:(discriminate)) as Hr.
  unfold isoformat, pad4, pad2. cbn [append]. unfold fromisoformat.
  cbn [Ascii.eqb Bool.eqb andb]. unfold number4.
  rewrite (number2_pad2 _ Hc), (number2_pad2 _ Hr), (number2_pad2 _ Hm),
    (number2_pad2 _ Hd).
  rewrite <- (Nat.div_mod_eq (year d) 100).
  destruct d as [y m dd]; cbn [year month day] in *. now rewrite Hv.
Qed.

(** A string that [fromisoformat] accepts is the ISO form of its date. *)
Lemma isoformat_fromisoformat (s : string) (d : date) :
  fromisoformat s = Some d -> isoformat d = s.
Proof.
  unfold fromisoformat.
  destruct s as [|y1 [|y2 [|y3 [|y4 [|s1 [|m1 [|m2 [|s2 [|d1 [|d2 [|? ?]]]]]]]]]]];
    try discriminate.
  destruct (Ascii.eqb_spec s1 "-") as [->|]; [|discriminate].
  destruct (Ascii.eqb_spec s2 "-") as [->|]; [|discriminate].
  cbn [andb].
  destruct (number4 y1 y2 y3 y4) as [y|] eqn:Hy; [|discriminate].
  destruct (number2 m1 m2) as [m|] eqn:Hm; [|discriminate].
  destruct (number2 d1 d2) as [dd|] eqn:Hd; [|discriminate].
  destruct (valid_date _); [|discriminate].
  intros [= <-].
  apply number4_spec in Hy. apply number2_spec in Hm as [_ Hm], Hd as [_ Hd].
  unfold isoformat; cbn [year month day].
  rewrite Hy, Hm, Hd. reflexivity.
Qed.

(** ** The content-type check *)

Lemma check_content_type_json (req : request) (st : Store) :
  content_type_header req = Some "application/json" ->
  check_content_type "application/json" req st = (Ok tt, st).
Proof.
  unfold check_content_type. intros ->. reflexivity.
Qed.

Lemma check_content_type_other (req : request) (st : Store) :
  content_type_header req <> Some "application/json" ->
  check_content_type "application/json" req st = (Err unsupported_media_type, st).
Proof.
  unfold check_content_type. intros H.
  destruct (content_type_header req) as [c|]; [|reflexivity].
  destruct (String.eqb_spec c "application/json") as [->|_].
  - now contradiction H.
  - rewrite andb_false_r. reflexivity.
Qed.

Lemma create_accounts_unsupported (today : date) (req : request) (st : Store) :
  content_type_header req <> Some "application/json" ->
  create_accounts today req st = (Err unsupported_media_type, st).
Proof.
  intros H. unfold create_accounts, bind.
  now rewrite (check_content_type_other req st H).
Qed.

(** ** Reading a payload *)

Lemma get_serialize_id (a : Account) :
  get "id" (serialize a) =
  Some (match id a with Some k => JNum k | None => JNull end).
Proof. reflexivity. Qed.

Lemma get_serialize_name (a : Account) :
  get "name" (serialize a) = Some (JStr (name a)).
Proof. reflexivity. Qed.

Lemma get_serialize_email (a : Account) :
  get "email" (serialize a) = Some (JStr (email a)).
Proof. reflexivity. Qed.

Lemma get_serialize_address (a : Account) :
  get "address" (serialize a) = Some (JStr (address a)).
Proof. reflexivity. Qed.

Lemma get_serialize_phone_number (a : Account) :
  get "phone_number" (serialize a) = Some (JStr (phone_number a)).
Proof. reflexivity. Qed.

Lemma get_serialize_date_joined (a : Account) :
  get "date_joined" (serialize a) = Some (JStr (isoformat (date_joined a))).
Proof. reflexivity. Qed.

Lemma deserialize_valid (self : Account) (data : json) (today : date) :
  valid_payload data = true ->
  exists acc, deserialize self data today = Ok acc /\
              id acc = id self /\
              reflects data today (serialize acc).
Proof.
  unfold valid_payload, deserialize, required_string, required_phone,
    optional_date, reflects.
  destruct (get "name" data) as [[| | |n| |]|] eqn:Hn; try discriminate.
  destruct (get "email" data) as [[| | |m| |]|] eqn:Hm; try discriminate.
  destruct (get "address" data) as [[| | |a| |]|] eqn:Ha; try discriminate.
  destruct (get "phone_number" data) as [[| |p|p| |]|] eqn:Hp; try discriminate.
  all: destruct (get "date_joined" data) as [[| | |s| |]|] eqn:Hd;
    try discriminate.
  all: try (destruct (fromisoformat s) as [d|] eqn:Hs;
            [apply isoformat_fromisoformat in Hs|discriminate]).
  all: intros _; eexists; (split; [reflexivity|]);
    rewrite get_serialize_name, get_serialize_email, get_serialize_address,
      get_serialize_phone_number, get_serialize_date_joined;
    cbn [id name email address phone_number date_joined option_map phone_text];
    repeat split; congruence.
Qed.

Lemma deserialize_missing (self : Account) (data : json) (today : date)
    (key : string) :
  In key required_fields -> get key data = None ->
  exists msg, deserialize self data today = Err (DataValidationError msg).
Proof.
  unfold required_fields, deserialize, required_string, required_phone.
  intros Hin Hget.
  destruct (get "name" data) as [[]|] eqn:Hn; try (eexists; reflexivity).
  destruct (get "email" data) as [[]|] eqn:Hm; try (eexists; reflexivity).
  destruct (get "address" data) as [[]|] eqn:Ha; try (eexists; reflexivity).
  destruct (get "phone_number" data) as [[]|] eqn:Hp; try (eexists; reflexivity);
    cbn in Hin; intuition (subst; congruence).
Qed.

Lemma deserialize_error (self : Account) (data : json) (today : date) (e : error) :
  deserialize self data today = Err e -> exists msg, e = DataValidationError msg.
Proof.
  unfold deserialize, required_string, required_phone, optional_date.
  repeat match goal with
         | |- context [get ?k data] => destruct (get k data) as [[]|]
         | |- context [fromisoformat ?s] => destruct (fromisoformat s)
         end;
    intros H; inversion H; eexists; reflexivity.
Qed.

(** ** Creating an account *)

Lemma content_type_cases (req : request) :
  content_type_header req = Some "application/json" \/
  content_type_header req <> Some "application/json".
Proof.
  destruct (content_type_header req) as [c|]; [|right; discriminate].
  destruct (String.eqb_spec c "application/json") as [->|H].
  - now left.
  - right. intros [= E]. now apply H.
Qed.

(** A well-formed creation: the record gets the next id of the sequence, is
    appended to the table and is sent back serialized. *)
Lemma create_accounts_ok (today : date) (req : request) (data : json)
    (acc : Account) (st : Store) :
  content_type_header req = Some "application/json" ->
  json_body req = Some data ->
  deserialize (Account_new today) data today = Ok acc ->
  create_accounts today req st =
    (Ok (mkResponse (JsonBody (serialize (set_id (next_id st) acc))) 201
           [("Location", "/")]),
     mkStore (rows st ++ [set_id (next_id st) acc]) (next_id st + 1)).
Proof.
  intros Hc Hb Hd.
  unfold create_accounts, bind.
  rewrite (check_content_type_json req st Hc).
  unfold get_json. rewrite Hb. unfold ret at 1, lift. rewrite Hd.
  reflexivity.
Qed.

Lemma create_accounts_bad_request (today : date) (req : request) (st : Store) :
  content_type_header req = Some "application/json" ->
  json_body req = None ->
  create_accounts today req st = (Err (HTTPException 400 None), st).
Proof.
  intros Hc Hb.
  unfold create_accounts, bind.
  rewrite (check_content_type_json req st Hc).
  unfold get_json. now rewrite Hb.
Qed.

Lemma create_accounts_invalid (today : date) (req : request) (data : json)
    (e : error) (st : Store) :
  content_type_header req = Some "application/json" ->
  json_body req = Some data ->
  deserialize (Account_new today) data today = Err e ->
  create_accounts today req st = (Err e, st).
Proof.
  intros Hc Hb Hd.
  unfold create_accounts, bind.
  rewrite (check_content_type_json req st Hc).
  unfold get_json. rewrite Hb. unfold ret at 1, lift. now rewrite Hd.
Qed.

Lemma create_accounts_outcome (today : date) (req : request) (st : Store) :
  create_outcome today req st (create_accounts today req st).
Proof.
  destruct (content_type_cases req) as [Hc|Hc].
  - destruct (json_body req) as [data|] eqn:Hb.
    + destruct (deserialize (Account_new today) data today) as [acc|e] eqn:Hd.
      * rewrite (create_accounts_ok today req data acc st Hc Hb Hd).
        now apply created with (data := data).
      * rewrite (create_accounts_invalid today req data e st Hc Hb Hd).
        destruct (deserialize_error _ _ _ _ Hd) as [msg ->].
        now apply rejected_payload with (data := data).
    + rewrite (create_accounts_bad_request today req st Hc Hb).
      now apply rejected_body.
  - rewrite (create_accounts_unsupported today req st Hc).
    now apply rejected_media_type.
Qed.

(** ** The fixed endpoints and rejected creations *)

(** C8: for every persisted state, [GET /health] answers 200 with the fixed
    payload [{"status": "OK"}] and [GET /] answers 200 with the fixed service
    name and version; both leave the persisted state as it was. *)
Theorem health_and_index_fixed (st : Store) :
  serve health st =
    (mkResponse (JsonBody (JObj [("status", JStr "OK")])) 200 [], st) /\
  serve index st =
    (mkResponse
       (JsonBody (JObj [("name", JStr "Account REST API Service");
                        ("version", JStr "1.0")])) 200 [], st).
Proof.
  split; reflexivity.
Qed.

(** C9: the content-type check of [POST /accounts] passes when the header is
    exactly the string [application/json]; with any other value, a missing
    header included, the check aborts and the request is answered 415. *)
Theorem content_type_must_be_exact (today : date) (req : request) (st : Store) :
  (content_type_header req = Some "application/json" ->
   check_content_type "application/json" req st = (Ok tt, st)) /\
  (content_type_header req <> Some "application/json" ->
   check_content_type "application/json" req st = (Err unsupported_media_type, st) /\
   status_code (fst (serve (create_accounts today req) st)) = 415).
Proof.
  split.
  - apply check_content_type_json.
  - intros H. split.
    + now apply check_content_type_other.
    + unfold serve. now rewrite (create_accounts_unsupported today req st H).
Qed.

(** The check at the header of the test client, at a parameterized media
    type and at a missing header. *)
Lemma content_type_must_be_exact_witness :
  check_content_type "application/json" (json_request rofrano) empty_store
    = (Ok tt, empty_store) /\
  status_code (fst (serve (create_accounts a_day
     (mkRequest (Some "application/json; charset=utf-8") (Some rofrano)))
     empty_store)) = 415 /\
  status_code (fst (serve (create_accounts a_day
     (mkRequest None (Some rofrano))) empty_store)) = 415.
Proof.
  split; [|split].
  - apply (proj1 (content_type_must_be_exact a_day (json_request rofrano) empty_store)).
    reflexivity.
  - apply (proj2 (content_type_must_be_exact a_day
             (mkRequest (Some "application/json; charset=utf-8") (Some rofrano))
             empty_store)).
    discriminate.
  - apply (proj2 (content_type_must_be_exact a_day
             (mkRequest None (Some rofrano)) empty_store)).
    discriminate.
Defined.

(** C3: a [POST /accounts] whose Content-Type is not [application/json] is
    answered 415 whatever its body; one with that content type whose JSON
    body lacks a required field is answered 400. *)
Theorem create_rejects_bad_requests (today : date) (req : request) (st : Store) :
  (content_type_header req <> Some "application/json" ->
   status_code (fst (serve (create_accounts today req) st)) = 415) /\
  (forall data key,
     content_type_header req = Some "application/json" ->
     json_body req = Some data ->
     In key required_fields -> get key data = None ->
     status_code (fst (serve (create_accounts today req) st)) = 400).
Proof.
  split.
  - intros H. unfold serve.
    now rewrite (create_accounts_unsupported today req st H).
  - intros data key Hc Hb Hin Hget.
    destruct (deserialize_missing (Account_new today) data today key Hin Hget)
      as [msg Hd].
    unfold serve.
    now rewrite (create_accounts_invalid today req data _ st Hc Hb Hd).
Qed.

(** A full payload sent as text/html, and the one-field body of the test
    suite sent as JSON. *)
Lemma create_rejects_bad_requests_witness :
  status_code (fst (serve (create_accounts a_day
     (mkRequest (Some "test/html") (Some rofrano))) empty_store)) = 415 /\
  status_code (fst (serve (create_accounts a_day
     (json_request (JObj [("name", JStr "not enough data")]))) empty_store)) = 400.
Proof.
  split.
  - apply (proj1 (create_rejects_bad_requests a_day
             (mkRequest (Some "test/html") (Some rofrano)) empty_store)).
    discriminate.
  - apply (proj2 (create_rejects_bad_requests a_day
             (json_request (JObj [("name", JStr "not enough data")])) empty_store)
             (JObj [("name", JStr "not enough data")]) "email").
    + reflexivity.
    + reflexivity.
    + simpl. auto.
    + reflexivity.
Defined.

(** C10: a [POST /accounts] answered 415 or 400 failed before the persist
    step: the table of accounts is the one the request found. *)
Theorem create_atomic_on_error (today : date) (req : request) (st : Store) :
  status_code (fst (serve (create_accounts today req) st)) = 415 \/
  status_code (fst (serve (create_accounts today req) st)) = 400 ->
  snd (serve (create_accounts today req) st) = st.
Proof.
  unfold serve.
  destruct (create_accounts_outcome today req st); cbn; intros [E|E];
    try reflexivity; discriminate E.
Qed.

Lemma create_atomic_on_error_witness :
  snd (serve (create_accounts a_day
         (mkRequest (Some "test/html") (Some rofrano))) empty_store) = empty_store /\
  snd (serve (create_accounts a_day
         (json_request (JObj [("name", JStr "not enough data")]))) empty_store)
    = empty_store.
Proof.
  split.
  - apply create_atomic_on_error. left. reflexivity.
  - apply create_atomic_on_error. right. reflexivity.
Defined.

(** ** The table of accounts *)

Lemma find_has_id (k : Z) (l : list Account) (a : Account) :
  List.find (has_id k) l = Some a -> id a = Some k.
Proof.
  intros H. apply find_some in H as [_ H].
  unfold has_id in H. destruct (id a) as [j|]; [|discriminate].
  apply Z.eqb_eq in H. now subst.
Qed.

Lemma has_id_set_id (k : Z) (a : Account) : has_id k (set_id k a) = true.
Proof. unfold has_id; cbn. apply Z.eqb_refl. Qed.

Lemma find_snoc (p : Account -> bool) (l : list Account) (x : Account) :
  List.find p l = None -> p x = true -> List.find p (l ++ [x]) = Some x.
Proof.
  induction l as [|y l IH]; cbn; intros Hl Hx.
  - now rewrite Hx.
  - destruct (p y); [discriminate|]. now apply IH.
Qed.

Lemma find_replace (k : Z) (b a : Account) (l : list Account) :
  List.find (has_id k) l = Some a -> has_id k b = true ->
  List.find (has_id k) (map (fun r => if has_id k r then b else r) l) = Some b.
Proof.
  intros Hl Hb. induction l as [|y l IH]; cbn in *; [discriminate|].
  destruct (has_id k y) eqn:Hy.
  - now rewrite Hb.
  - rewrite Hy. now apply IH.
Qed.

Lemma find_removed (k : Z) (l : list Account) :
  List.find (has_id k) (filter (fun r => negb (has_id k r)) l) = None.
Proof.
  induction l as [|y l IH]; cbn; [reflexivity|].
  destruct (has_id k y) eqn:Hy; cbn; [assumption|].
  now rewrite Hy.
Qed.

Lemma filter_absent (k : Z) (l : list Account) :
  List.find (has_id k) l = None ->
  filter (fun r => negb (has_id k r)) l = l.
Proof.
  induction l as [|y l IH]; cbn; [reflexivity|].
  destruct (has_id k y); [discriminate|]. cbn. intros H. now rewrite IH.
Qed.

(** No row carries the id the sequence gives out next. *)
Lemma next_id_fresh (st : Store) :
  store_wf st = true -> persisted (next_id st) st = None.
Proof.
  unfold store_wf, persisted. intros H.
  apply andb_prop in H as [H _].
  destruct st as [l n]; cbn in *.
  induction l as [|y l IH]; cbn in *; [reflexivity|].
  apply andb_prop in H as [Hy H].
  unfold has_id at 1. destruct (id y) as [j|].
  - apply andb_prop in Hy as [_ Hy]. apply Z.ltb_lt in Hy.
    destruct (Z.eqb_spec j n); [lia|]. now apply IH.
  - discriminate.
Qed.

Lemma next_id_positive (st : Store) : store_wf st = true -> 0 < next_id st.
Proof.
  unfold store_wf. intros H. apply andb_prop in H as [_ H].
  now apply Z.ltb_lt.
Qed.

(** ** Listing *)

Lemma list_accounts_spec (st : Store) :
  serve list_accounts st =
    (mkResponse (JsonBody (JArr (map serialize (rows st)))) 200 [], st).
Proof. reflexivity. Qed.

(** A creation answered 201 adds one row. *)
Lemma create_accounts_created (today : date) (req : request) (st : Store) :
  status_code (fst (serve (create_accounts today req) st)) = 201 ->
  exists acc,
    snd (serve (create_accounts today req) st) =
      mkStore (rows st ++ [acc]) (next_id st + 1).
Proof.
  unfold serve.
  destruct (create_accounts_outcome today req st); cbn; intros E;
    try discriminate E.
  eexists. reflexivity.
Qed.

Lemma post_all_rows (today : date) (requests : list request) (st : Store) :
  Forall (fun r => status_code r = 201) (fst (post_all today requests st)) ->
  List.length (rows (snd (post_all today requests st))) =
    (List.length (rows st) + List.length requests)%nat.
Proof.
  revert st. induction requests as [|r rest IH]; intros st; cbn [post_all].
  - cbn. lia.
  - pose proof (create_accounts_created today r st) as Hc.
    destruct (serve (create_accounts today r) st) as [resp st1].
    specialize (IH st1).
    destruct (post_all today rest st1) as [resps st2].
    cbn [fst snd] in *. intros HF. inversion HF as [|? ? E HF']; subst.
    destruct (Hc E) as [acc ->]. rewrite (IH HF'). cbn [rows].
    rewrite length_app. cbn. lia.
Qed.

(** C7: [GET /accounts] answers 200 with every persisted account
    serialized, in order; on the empty table the sequence is empty; after N
    creations on the empty table it has exactly N elements. *)
Theorem list_accounts_returns_all (today : date) (st : Store)
    (requests : list request) :
  serve list_accounts st =
    (mkResponse (JsonBody (JArr (map serialize (rows st)))) 200 [], st) /\
  serve list_accounts empty_store =
    (mkResponse (JsonBody (JArr [])) 200 [], empty_store) /\
  (Forall (fun r => status_code r = 201)
     (fst (post_all today requests empty_store)) ->
   exists items,
     fst (serve list_accounts (snd (post_all today requests empty_store))) =
       mkResponse (JsonBody (JArr items)) 200 [] /\
     List.length items = List.length requests).
Proof.
  split; [reflexivity|split; [reflexivity|]].
  intros HF. eexists. split.
  - rewrite list_accounts_spec. reflexivity.
  - rewrite length_map. now rewrite (post_all_rows today requests empty_store HF).
Qed.

(** Two accounts created on the empty table, then listed. *)
Lemma list_accounts_returns_all_witness :
  exists items,
    fst (serve list_accounts
           (snd (post_all a_day [json_request rofrano; json_request jeronimo]
                   empty_store))) =
      mkResponse (JsonBody (JArr items)) 200 [] /\
    List.length items = 2%nat.
Proof.
  apply (proj2 (proj2 (list_accounts_returns_all a_day empty_store
                         [json_request rofrano; json_request jeronimo]))).
  repeat constructor.
Defined.

(** ** Deleting *)

Lemma delete_account_spec (k : Z) (st : Store) :
  serve (delete_account k) st =
    (mkResponse (TextBody EmptyString) 204 [],
     mkStore (filter (fun r => negb (has_id k r)) (rows st)) (next_id st)).
Proof.
  unfold serve, delete_account, bind, Accounts.find.
  destruct (List.find (has_id k) (rows st)) as [found|] eqn:Hf.
  - cbn. rewrite (find_has_id k _ _ Hf). reflexivity.
  - cbn. rewrite (filter_absent k _ Hf). now destruct st.
Qed.

(** C5: [DELETE /accounts/{id}] answers 204 with an empty body whether or
    not the account exists; a second deletion of the same id answers 204
    again and changes nothing; deleting an id that is not persisted leaves
    the table as it was. *)
Theorem delete_account_idempotent (k : Z) (st : Store) :
  fst (serve (delete_account k) st) = mkResponse (TextBody EmptyString) 204 [] /\
  persisted k (snd (serve (delete_account k) st)) = None /\
  serve (delete_account k) (snd (serve (delete_account k) st)) =
    (mkResponse (TextBody EmptyString) 204 [], snd (serve (delete_account k) st)) /\
  (persisted k st = None -> snd (serve (delete_account k) st) = st).
Proof.
  rewrite delete_account_spec. cbn [fst snd].
  split; [reflexivity|]. split; [apply find_removed|]. split.
  - rewrite delete_account_spec. cbn [rows next_id].
    now rewrite (filter_absent k _ (find_removed k (rows st))).
  - intros H. unfold persisted in H. rewrite (filter_absent k _ H).
    now destruct st.
Qed.

(** Deleting id 42, the absent id of the test suite, on the empty table. *)
Lemma delete_account_idempotent_witness :
  snd (serve (delete_account 42) empty_store) = empty_store.
Proof.
  apply (proj2 (proj2 (proj2 (delete_account_idempotent 42 empty_store)))).
  reflexivity.
Defined.

(** ** Reading and updating *)

Lemma occurs_in_prefix (s t : string) : String.prefix s (s ++ t) = true.
Proof.
  induction s as [|c s IH]; cbn.
  - now destruct t.
  - destruct (ascii_dec c c) as [_|N]; [assumption|now contradiction N].
Qed.

Lemma occurs_in_unfold (needle hay : string) :
  occurs_in needle hay =
  String.prefix needle hay ||
  match hay with
  | EmptyString => false
  | String _ rest => occurs_in needle rest
  end.
Proof. destruct hay; reflexivity. Qed.

Lemma occurs_in_middle (a s b : string) : occurs_in s (a ++ s ++ b) = true.
Proof.
  induction a as [|c a IH]; cbn [append].
  - rewrite occurs_in_unfold, occurs_in_prefix. reflexivity.
  - rewrite occurs_in_unfold, IH. apply orb_true_r.
Qed.

Lemma read_account_found (k : Z) (st : Store) (found : Account) :
  persisted k st = Some found ->
  read_account k st =
    (Ok (mkResponse (JsonBody (serialize found)) 200 []), st).
Proof.
  unfold persisted, read_account, bind, Accounts.find. now intros ->.
Qed.

(** Reading an id that is not persisted aborts with 404 and a description
    that names the id. *)
Lemma read_account_absent (k : Z) (st : Store) :
  persisted k st = None ->
  read_account k st =
    (Err (HTTPException 404
            (Some ("Account with id " ++ str_int k ++ " could not be found :("))),
     st) /\
  occurs_in (str_int k)
    ("Account with id " ++ str_int k ++ " could not be found :(") = true.
Proof.
  unfold persisted, read_account, bind, Accounts.find. intros ->.
  split; [reflexivity|apply occurs_in_middle].
Qed.

(** Updating an id that is not persisted aborts with 404 and no description. *)
Lemma update_accounts_absent (today : date) (k : Z) (req : request) (st : Store) :
  persisted k st = None ->
  update_accounts today k req st = (Err (HTTPException 404 None), st).
Proof.
  unfold persisted, update_accounts, bind, Accounts.find. now intros ->.
Qed.

Lemma deserialize_id (self acc : Account) (data : json) (today : date) :
  deserialize self data today = Ok acc -> id acc = id self.
Proof.
  unfold deserialize.
  destruct (required_string "name" data); [|discriminate].
  destruct (required_string "email" data); [|discriminate].
  destruct (required_string "address" data); [|discriminate].
  destruct (required_phone data); [|discriminate].
  destruct (optional_date data today); [|discriminate].
  now intros [= <-].
Qed.

Lemma update_accounts_ok (today : date) (k : Z) (req : request) (st : Store)
    (found updated : Account) (data : json) :
  persisted k st = Some found ->
  json_body req = Some data ->
  deserialize found data today = Ok updated ->
  update_accounts today k req st =
    (Ok (mkResponse (JsonBody (serialize updated)) 200 []),
     mkStore (map (fun r => if has_id k r then updated else r) (rows st))
       (next_id st)).
Proof.
  intros Hf Hb Hd.
  pose proof (deserialize_id _ _ _ _ Hd) as Hid.
  rewrite (find_has_id k _ _ Hf) in Hid.
  unfold persisted in Hf.
  unfold update_accounts, bind, Accounts.find. rewrite Hf.
  unfold get_json. rewrite Hb. unfold ret at 1, lift. rewrite Hd.
  unfold Accounts.update. rewrite Hid. reflexivity.
Qed.

(** An update whose body is not a valid payload raises the validation
    error, answered 400, and changes nothing. *)
Lemma update_accounts_invalid (today : date) (k : Z) (req : request) (st : Store)
    (found : Account) (data : json) (e : error) :
  persisted k st = Some found ->
  json_body req = Some data ->
  deserialize found data today = Err e ->
  update_accounts today k req st = (Err e, st) /\ error_status e = 400.
Proof.
  intros Hf Hb Hd. unfold persisted in Hf.
  unfold update_accounts, bind, Accounts.find. rewrite Hf.
  unfold get_json. rewrite Hb. unfold ret at 1, lift. rewrite Hd.
  destruct (deserialize_error _ _ _ _ Hd) as [msg ->]. now split.
Qed.

Lemma reflects_set_id (data : json) (today : date) (k : Z) (acc : Account) :
  reflects data today (serialize acc) ->
  reflects data today (serialize (set_id k acc)).
Proof.
  unfold reflects.
  now rewrite !get_serialize_name, !get_serialize_email, !get_serialize_address,
    !get_serialize_phone_number, !get_serialize_date_joined.
Qed.

(** ** The invariant of the table *)

Lemma store_wf_empty : store_wf empty_store = true.
Proof. reflexivity. Qed.

Lemma store_wf_create (st : Store) (acc : Account) :
  store_wf st = true ->
  store_wf (mkStore (rows st ++ [set_id (next_id st) acc]) (next_id st + 1)) = true.
Proof.
  unfold store_wf. cbn [rows next_id]. intros H.
  apply andb_prop in H as [Hr Hn]. apply Z.ltb_lt in Hn.
  apply andb_true_intro. split; [|apply Z.ltb_lt; lia].
  rewrite forallb_app. apply andb_true_intro. split.
  - rewrite forallb_forall in *. intros a Ha. specialize (Hr a Ha).
    destruct (id a) as [j|]; [|discriminate].
    apply andb_prop in Hr as [H0 H1]. apply Z.ltb_lt in H0, H1.
    apply andb_true_intro. split; apply Z.ltb_lt; lia.
  - cbn. rewrite andb_true_r. apply andb_true_intro.
    split; apply Z.ltb_lt; lia.
Qed.

Lemma store_wf_update (st : Store) (k : Z) (found updated : Account) :
  store_wf st = true -> persisted k st = Some found -> id updated = Some k ->
  store_wf (mkStore (map (fun r => if has_id k r then updated else r) (rows st))
              (next_id st)) = true.
Proof.
  unfold store_wf, persisted. cbn [rows next_id]. intros H Hf Hid.
  apply andb_prop in H as [Hr Hn].
  apply andb_true_intro. split; [|assumption].
  rewrite forallb_forall in *. intros a Ha.
  apply in_map_iff in Ha as [r [<- Hin]].
  destruct (has_id k r).
  - rewrite Hid. pose proof (find_has_id k _ _ Hf) as Hk.
    apply find_some in Hf as [Hin' _]. specialize (Hr found Hin').
    now rewrite Hk in Hr.
  - now apply Hr.
Qed.

Lemma store_wf_delete (st : Store) (k : Z) :
  store_wf st = true ->
  store_wf (mkStore (filter (fun r => negb (has_id k r)) (rows st))
              (next_id st)) = true.
Proof.
  unfold store_wf. cbn [rows next_id]. intros H.
  apply andb_prop in H as [Hr Hn].
  apply andb_true_intro. split; [|assumption].
  rewrite forallb_forall in *. intros a Ha.
  apply filter_In in Ha as [Ha _]. now apply Hr.
Qed.

(** Every handler keeps the invariant. *)
Lemma handlers_keep_store_wf (today : date) (k : Z) (req : request) (st : Store) :
  store_wf st = true ->
  store_wf (snd (serve health st)) = true /\
  store_wf (snd (serve index st)) = true /\
  store_wf (snd (serve (create_accounts today req) st)) = true /\
  store_wf (snd (serve list_accounts st)) = true /\
  store_wf (snd (serve (read_account k) st)) = true /\
  store_wf (snd (serve (update_accounts today k req) st)) = true /\
  store_wf (snd (serve (delete_account k) st)) = true.
Proof.
  intros H. repeat split; try assumption.
  - unfold serve.
    destruct (create_accounts_outcome today req st); cbn [snd]; try assumption.
    now apply store_wf_create.
  - unfold serve.
    destruct (persisted k st) as [found|] eqn:Hf.
    + now rewrite (read_account_found k st found Hf).
    + now rewrite (proj1 (read_account_absent k st Hf)).
  - unfold serve.
    destruct (persisted k st) as [found|] eqn:Hf.
    + unfold update_accounts, bind, Accounts.find.
      unfold persisted in Hf. rewrite Hf.
      unfold get_json. destruct (json_body req) as [data|]; [|assumption].
      unfold ret at 1, lift.
      destruct (deserialize found data today) as [updated|e] eqn:Hd; [|assumption].
      pose proof (deserialize_id _ _ _ _ Hd) as Hid.
      rewrite (find_has_id k _ _ Hf) in Hid.
      unfold Accounts.update. rewrite Hid. cbn [snd].
      now apply store_wf_update with (found := found).
    + now rewrite (update_accounts_absent today k req st Hf).
  - rewrite delete_account_spec. now apply store_wf_delete.
Qed.

(** ** Creating then reading, updating *)

(** C6, as amended: for every valid Account payload, a creation followed by
    a read of the id it returned shows a record that carries the field
    values of the payload on every field but [id], where a [phone_number]
    given as a number reads back as its string and a [date_joined] that was
    not given reads back as the creation date; the id is positive and was
    not in use before. *)
Theorem create_then_read (today : date) (req : request) (data : json)
    (st : Store) :
  store_wf st = true ->
  content_type_header req = Some "application/json" ->
  json_body req = Some data ->
  valid_payload data = true ->
  exists k created shown,
    status_code (fst (serve (create_accounts today req) st)) = 201 /\
    response_body (fst (serve (create_accounts today req) st)) = JsonBody created /\
    get "id" created = Some (JNum k) /\
    serve (read_account k) (snd (serve (create_accounts today req) st)) =
      (mkResponse (JsonBody shown) 200 [],
       snd (serve (create_accounts today req) st)) /\
    reflects data today shown /\
    get "id" shown = Some (JNum k) /\
    0 < k /\
    persisted k st = None.
Proof.
  intros Hwf Hc Hb Hv.
  destruct (deserialize_valid (Account_new today) data today Hv)
    as [acc [Hd [_ Hr]]].
  pose proof (next_id_fresh st Hwf) as Hfresh.
  exists (next_id st), (serialize (set_id (next_id st) acc)),
    (serialize (set_id (next_id st) acc)).
  assert (serve (create_accounts today req) st =
            (mkResponse (JsonBody (serialize (set_id (next_id st) acc))) 201
               [("Location", "/")],
             mkStore (rows st ++ [set_id (next_id st) acc]) (next_id st + 1)))
    as Hs
    by (unfold serve; now rewrite (create_accounts_ok today req data acc st Hc Hb Hd)).
  rewrite !Hs. cbn [fst snd].
  split; [reflexivity|]. split; [reflexivity|].
  split; [apply get_serialize_id|].
  split; [|split; [|split; [|split]]].
  - unfold serve.
    rewrite (read_account_found (next_id st) _ (set_id (next_id st) acc)).
    + reflexivity.
    + unfold persisted. cbn [rows].
      apply find_snoc; [exact Hfresh|apply has_id_set_id].
  - now apply reflects_set_id.
  - apply get_serialize_id.
  - now apply next_id_positive.
  - exact Hfresh.
Qed.

(** The payload of the specification's example, created on the empty table
    and read back under id 1. *)
Lemma create_then_read_witness :
  exists k created shown,
    status_code
      (fst (serve (create_accounts a_day (json_request rofrano)) empty_store)) = 201 /\
    response_body
      (fst (serve (create_accounts a_day (json_request rofrano)) empty_store)) =
      JsonBody created /\
    get "id" created = Some (JNum k) /\
    serve (read_account k)
      (snd (serve (create_accounts a_day (json_request rofrano)) empty_store)) =
      (mkResponse (JsonBody shown) 200 [],
       snd (serve (create_accounts a_day (json_request rofrano)) empty_store)) /\
    reflects rofrano a_day shown /\
    get "id" shown = Some (JNum k) /\
    0 < k /\
    persisted k empty_store = None.
Proof.
  apply (create_then_read a_day (json_request rofrano) rofrano empty_store);
    reflexivity.
Defined.

(** C6 as first stated, equality on every field but [id], fails on the
    payload of the test suite whose phone number is the number 42: the
    payload is valid, it is created with 201 and read back with 200, and the
    [phone_number] read is the string ["42"], not the number that was
    given. *)
Lemma create_then_read_not_equal :
  valid_payload jeronimo = true /\
  status_code
    (fst (serve (create_accounts a_day (json_request jeronimo)) empty_store)) = 201 /\
  fst (serve (read_account 1)
         (snd (serve (create_accounts a_day (json_request jeronimo)) empty_store))) =
    mkResponse
      (JsonBody
         (serialize
            (mkAccount (Some 1) "Jeronimo" "rofrano@example.com" "123 Main St"
               "42" (mkDate 2022 1 1)))) 200 [] /\
  get "phone_number" jeronimo = Some (JNum 42) /\
  get "phone_number"
    (serialize
       (mkAccount (Some 1) "Jeronimo" "rofrano@example.com" "123 Main St"
          "42" (mkDate 2022 1 1))) = Some (JStr "42") /\
  get "phone_number"
    (serialize
       (mkAccount (Some 1) "Jeronimo" "rofrano@example.com" "123 Main St"
          "42" (mkDate 2022 1 1))) <> get "phone_number" jeronimo.
Proof.
  repeat split. discriminate.
Qed.

(** C4: for an id that is persisted, [PUT /accounts/{id}] with an Account
    payload overwrites the fields of the record, keeps its id, persists it
    and answers 200 with a body that carries the new field values, a numeric
    [phone_number] as its string; for an id that is not persisted it answers
    404 and changes nothing. *)
Theorem update_accounts_overwrites (today : date) (k : Z) (req : request)
    (st : Store) :
  (forall found data,
     persisted k st = Some found ->
     json_body req = Some data ->
     valid_payload data = true ->
     exists updated,
       fst (serve (update_accounts today k req) st) =
         mkResponse (JsonBody (serialize updated)) 200 [] /\
       persisted k (snd (serve (update_accounts today k req) st)) = Some updated /\
       id updated = Some k /\
       reflects data today (serialize updated) /\
       (forall n, get "phone_number" data = Some (JNum n) ->
                  get "phone_number" (serialize updated) = Some (JStr (str_int n)))) /\
  (persisted k st = None ->
   status_code (fst (serve (update_accounts today k req) st)) = 404 /\
   snd (serve (update_accounts today k req) st) = st).
Proof.
  split.
  - intros found data Hf Hb Hv.
    destruct (deserialize_valid found data today Hv) as [updated [Hd [Hid Hr]]].
    rewrite (find_has_id k _ _ Hf) in Hid.
    exists updated. unfold serve.
    rewrite (update_accounts_ok today k req st found updated data Hf Hb Hd).
    cbn [fst snd handle]. repeat split; try assumption; try apply Hr.
    + unfold persisted. cbn [rows].
      apply find_replace with (a := found); [exact Hf|].
      unfold has_id. rewrite Hid. apply Z.eqb_refl.
    + intros n Hn. destruct Hr as [_ [_ [_ [Hp _]]]].
      now rewrite Hp, Hn.
  - intros Hf. unfold serve.
    now rewrite (update_accounts_absent today k req st Hf).
Qed.

(** Account 1 updated with the payload of the test suite, whose phone number
    is the number 42; and the update of the absent id 42. *)
Lemma update_accounts_overwrites_witness :
  (exists updated,
     fst (serve (update_accounts a_day 1 (json_request jeronimo)) one_account) =
       mkResponse (JsonBody (serialize updated)) 200 [] /\
     get "name" (serialize updated) = Some (JStr "Jeronimo") /\
     get "phone_number" (serialize updated) = Some (JStr "42")) /\
  status_code
    (fst (serve (update_accounts a_day 42 (json_request (JObj []))) empty_store))
    = 404.
Proof.
  split.
  - destruct (proj1 (update_accounts_overwrites a_day 1 (json_request jeronimo)
                       one_account)
                rofrano_account jeronimo eq_refl eq_refl eq_refl)
      as [updated [H1 [_ [_ [Hr Hp]]]]].
    exists updated. split; [exact H1|]. split.
    + exact (proj1 Hr).
    + exact (Hp 42 eq_refl).
  - apply (proj2 (update_accounts_overwrites a_day 42 (json_request (JObj []))
                    empty_store)).
    reflexivity.
Defined.

(** Whatever is created, the Location header is the root path. *)
Lemma create_accounts_location (today : date) (req : request) (st : Store) :
  status_code (fst (serve (create_accounts today req) st)) = 201 ->
  header "Location" (fst (serve (create_accounts today req) st)) = Some "/".
Proof.
  unfold serve.
  destruct (create_accounts_outcome today req st); cbn; intros E;
    try discriminate E.
  reflexivity.
Qed.

(** C2: a valid payload posted as [application/json] is given a new id,
    persisted and sent back serialized with status 201; the Location header
    of the response, however, is the root path ["/"], not a reference to the
    created account (here the account of id 1). *)
Theorem create_accounts_location_is_root :
  status_code (fst (serve (create_accounts a_day (json_request rofrano)) empty_store))
    = 201 /\
  response_body (fst (serve (create_accounts a_day (json_request rofrano)) empty_store))
    = JsonBody (serialize rofrano_account) /\
  persisted 1 one_account = Some rofrano_account /\
  header "Location"
    (fst (serve (create_accounts a_day (json_request rofrano)) empty_store))
    = Some "/" /\
  occurs_in (str_int 1) "/" = false.
Proof.
  repeat split.
Qed.

(** C1: on a table where id 42 is absent, [GET /accounts/42] answers 404
    with a message that names the id, while [PUT /accounts/42] answers 404
    with the framework's general not-found text, in which the id does not
    occur. *)
Theorem update_not_found_does_not_name_id :
  serve (read_account 42) empty_store =
    (mkResponse
       (JsonBody (JObj [("status", JNum 404);
                        ("message", JStr "Account with id 42 could not be found :(")]))
       404 [], empty_store) /\
  serve (update_accounts a_day 42 (json_request (JObj []))) empty_store =
    (mkResponse
       (JsonBody (JObj [("status", JNum 404);
                        ("message", JStr (default_description 404))]))
       404 [], empty_store) /\
  occurs_in (str_int 42) "Account with id 42 could not be found :(" = true /\
  occurs_in (str_int 42) (default_description 404) = false.
Proof.
  repeat split.
Qed.

(** * Further properties of the routes *)

(** ** The ways an update can go *)

Lemma update_accounts_cases (today : date) (k : Z) (req : request) (st : Store) :
  (persisted k st = None /\
   update_accounts today k req st = (Err (HTTPException 404 None), st)) \/
  (exists found,
     persisted k st = Some found /\ json_body req = None /\
     update_accounts today k req st = (Err (HTTPException 400 None), st)) \/
  (exists found data msg,
     persisted k st = Some found /\ json_body req = Some data /\
     deserialize found data today = Err (DataValidationError msg) /\
     update_accounts today k req st = (Err (DataValidationError msg), st)) \/
  (exists found data updated,
     persisted k st = Some found /\ json_body req = Some data /\
     deserialize found data today = Ok updated /\
     id updated = Some k /\
     update_accounts today k req st =
       (Ok (mkResponse (JsonBody (serialize updated)) 200 []),
        mkStore (map (fun r => if has_id k r then updated else r) (rows st))
          (next_id st))).
Proof.
  destruct (persisted k st) as [found|] eqn:Hf.
  - right. destruct (json_body req) as [data|] eqn:Hb.
    + destruct (deserialize found data today) as [updated|e] eqn:Hd.
      * right. right. exists found, data, updated.
        repeat split; try reflexivity; try assumption.
        -- rewrite (deserialize_id _ _ _ _ Hd). exact (find_has_id k _ _ Hf).
        -- now apply update_accounts_ok with (found := found) (data := data).
      * right. left.
        destruct (deserialize_error _ _ _ _ Hd) as [msg ->].
        exists found, data, msg. repeat split; try assumption.
        now apply (update_accounts_invalid today k req st found data _ Hf Hb Hd).
    + left. exists found. repeat split.
      unfold persisted in Hf.
      unfold update_accounts, bind, Accounts.find. rewrite Hf.
      unfold get_json. now rewrite Hb.
  - left. split; [reflexivity|].
    now apply update_accounts_absent.
Qed.

(** [deserialize] takes nothing from the record it fills but its id. *)
Lemma deserialize_same_id (a b : Account) (data : json) (today : date) :
  id a = id b -> deserialize a data today = deserialize b data today.
Proof.
  unfold deserialize. intros ->. reflexivity.
Qed.

Lemma has_id_other (j k : Z) (a : Account) :
  j <> k -> has_id k a = true -> has_id j a = false.
Proof.
  unfold has_id. destruct (id a) as [i|]; [|discriminate].
  intros Hjk Hk. apply Z.eqb_eq in Hk. subst. now apply Z.eqb_neq.
Qed.

Lemma find_replace_other (j k : Z) (b : Account) (l : list Account) :
  j <> k -> has_id k b = true ->
  List.find (has_id j) (map (fun r => if has_id k r then b else r) l) =
  List.find (has_id j) l.
Proof.
  intros Hjk Hb. induction l as [|y l IH]; cbn; [reflexivity|].
  destruct (has_id k y) eqn:Hy.
  - rewrite (has_id_other j k b Hjk Hb), (has_id_other j k y Hjk Hy). exact IH.
  - destruct (has_id j y); [reflexivity|exact IH].
Qed.

Lemma find_filter_other (j k : Z) (l : list Account) :
  j <> k ->
  List.find (has_id j) (filter (fun r => negb (has_id k r)) l) =
  List.find (has_id j) l.
Proof.
  intros Hjk. induction l as [|y l IH]; cbn; [reflexivity|].
  destruct (has_id k y) eqn:Hy; cbn.
  - now rewrite (has_id_other j k y Hjk Hy).
  - destruct (has_id j y); [reflexivity|exact IH].
Qed.

Lemma find_snoc_other (p : Account -> bool) (l : list Account) (x : Account) :
  p x = false -> List.find p (l ++ [x]) = List.find p l.
Proof.
  intros Hx. induction l as [|y l IH]; cbn.
  - now rewrite Hx.
  - destruct (p y); [reflexivity|exact IH].
Qed.

Lemma replace_twice (k : Z) (b : Account) (l : list Account) :
  has_id k b = true ->
  map (fun r => if has_id k r then b else r)
    (map (fun r => if has_id k r then b else r) l) =
  map (fun r => if has_id k r then b else r) l.
Proof.
  intros Hb. rewrite map_map. apply map_ext. intros r.
  destruct (has_id k r) eqn:Hr; [now rewrite Hb|now rewrite Hr].
Qed.

(** On a table that satisfies the invariant, only ids from 1 up to the last
    one given out can be persisted. *)
Lemma persisted_out_of_range (k : Z) (st : Store) :
  store_wf st = true -> k <= 0 \/ next_id st <= k -> persisted k st = None.
Proof.
  unfold store_wf, persisted. intros H Hk.
  apply andb_prop in H as [H _].
  induction (rows st) as [|y l IH]; cbn in *; [reflexivity|].
  apply andb_prop in H as [Hy H].
  unfold has_id at 1. destruct (id y) as [j|]; [|discriminate].
  apply andb_prop in Hy as [H0 H1]. apply Z.ltb_lt in H0, H1.
  destruct (Z.eqb_spec j k); [lia|]. now apply IH.
Qed.

(** ** The invariant along any sequence of requests *)

Lemma next_id_not_in_ids (st : Store) :
  store_wf st = true -> ~ In (Some (next_id st)) (ids st).
Proof.
  intros Hwf Hin. unfold ids in Hin.
  apply in_map_iff in Hin as [a [Ha Hin]].
  pose proof (next_id_fresh st Hwf) as Hf. unfold persisted in Hf.
  pose proof (find_none _ _ Hf a Hin) as Hn.
  unfold has_id in Hn. rewrite Ha, Z.eqb_refl in Hn. discriminate.
Qed.

Lemma ids_replace (k : Z) (b : Account) (l : list Account) :
  id b = Some k ->
  map id (map (fun r => if has_id k r then b else r) l) = map id l.
Proof.
  intros Hb. induction l as [|y l IH]; cbn; [reflexivity|].
  rewrite IH. f_equal.
  destruct (has_id k y) eqn:Hy; [|reflexivity].
  unfold has_id in Hy. destruct (id y) as [j|]; [|discriminate].
  apply Z.eqb_eq in Hy. now subst.
Qed.

Lemma NoDup_ids_filter (p : Account -> bool) (l : list Account) :
  NoDup (map id l) -> NoDup (map id (filter p l)).
Proof.
  induction l as [|y l IH]; cbn; intros H; [constructor|].
  inversion H as [|? ? Hy Hl]; subst.
  destruct (p y); cbn; [|now apply IH].
  constructor; [|now apply IH].
  intros Hin. apply Hy.
  apply in_map_iff in Hin as [a [Ha Hin]].
  apply filter_In in Hin as [Hin _].
  apply in_map_iff. now exists a.
Qed.

Lemma route_keeps_invariant (today : date) (m : method) (p : path)
    (req : request) (st : Store) :
  store_wf st = true /\ NoDup (ids st) ->
  store_wf (snd (serve (route today m p req) st)) = true /\
  NoDup (ids (snd (serve (route today m p req) st))).
Proof.
  intros [Hwf Hnd].
  destruct p as [| | |k]; destruct m; cbn [route];
    try (split; assumption).
  - (* POST /accounts *)
    split; [apply (handlers_keep_store_wf today 0 req st Hwf)|].
    unfold serve.
    destruct (create_accounts_outcome today req st); cbn [snd]; try assumption.
    unfold ids. cbn [rows]. rewrite map_app. apply NoDup_app.
    + exact Hnd.
    + cbn. constructor; [intros []|constructor].
    + intros a Ha [<-|[]]. cbn in Ha.
      now apply (next_id_not_in_ids st Hwf).
  - (* GET /accounts/<id> *)
    split; [apply (handlers_keep_store_wf today k req st Hwf)|].
    unfold serve.
    destruct (persisted k st) as [found|] eqn:Hf.
    + now rewrite (read_account_found k st found Hf).
    + now rewrite (proj1 (read_account_absent k st Hf)).
  - (* PUT /accounts/<id> *)
    split; [apply (handlers_keep_store_wf today k req st Hwf)|].
    unfold serve.
    destruct (update_accounts_cases today k req st)
      as [[_ ->]|[[found [_ [_ ->]]]|[[found [data [msg [_ [_ [_ ->]]]]]]
         |[found [data [updated [_ [_ [_ [Hid ->]]]]]]]]]];
      cbn [snd]; try assumption.
    unfold ids. cbn [rows]. now rewrite (ids_replace k updated _ Hid).
  - (* DELETE /accounts/<id> *)
    split; [apply (handlers_keep_store_wf today k req st Hwf)|].
    rewrite delete_account_spec. cbn [snd]. unfold ids. cbn [rows].
    now apply NoDup_ids_filter.
Qed.

Lemma run_keeps_invariant (calls : list call) (st : Store) :
  store_wf st = true /\ NoDup (ids st) ->
  store_wf (snd (run calls st)) = true /\ NoDup (ids (snd (run calls st))).
Proof.
  revert st. induction calls as [|c rest IH]; intros st H; cbn [run].
  - exact H.
  - pose proof (route_keeps_invariant (call_date c) (call_method c)
                  (call_path c) (call_request c) st H) as H1.
    destruct (serve _ st) as [resp st1]. cbn [snd] in H1.
    specialize (IH st1 H1).
    destruct (run rest st1) as [resps st2]. exact IH.
Qed.

Lemma store_wf_rows (st : Store) (a : Account) :
  store_wf st = true -> In a (rows st) ->
  exists k, id a = Some k /\ 0 < k < next_id st.
Proof.
  unfold store_wf. intros H Hin. apply andb_prop in H as [H _].
  rewrite forallb_forall in H. specialize (H a Hin).
  destruct (id a) as [k|]; [|discriminate].
  apply andb_prop in H as [H0 H1]. apply Z.ltb_lt in H0, H1.
  exists k. split; [reflexivity|lia].
Qed.

(** X1: whatever requests have been served since the table was empty, no two
    persisted accounts share an id, and every persisted account has a
    positive id below the next one of the sequence. *)
Theorem ids_unique_and_positive (calls : list call) :
  NoDup (ids (snd (run calls empty_store))) /\
  (forall a, In a (rows (snd (run calls empty_store))) ->
             exists k, id a = Some k /\ 0 < k < next_id (snd (run calls empty_store))).
Proof.
  destruct (run_keeps_invariant calls empty_store) as [Hwf Hnd].
  - split; [reflexivity|constructor].
  - split; [exact Hnd|]. intros a Ha. now apply store_wf_rows.
Qed.

(** X2: whatever requests have been served since the table was empty, an id
    that is zero or negative is not found: reading it is answered 404 and
    changes nothing. *)
Theorem nonpositive_id_never_found (calls : list call) (k : Z) :
  k <= 0 ->
  status_code (fst (serve (read_account k) (snd (run calls empty_store)))) = 404 /\
  snd (serve (read_account k) (snd (run calls empty_store))) =
    snd (run calls empty_store).
Proof.
  intros Hk.
  destruct (run_keeps_invariant calls empty_store) as [Hwf _].
  - split; [reflexivity|constructor].
  - unfold serve.
    rewrite (proj1 (read_account_absent k _
               (persisted_out_of_range k _ Hwf (or_introl Hk)))).
    split; reflexivity.
Qed.

(** Id 0, the id of the test suite, after two creations and a deletion. *)
Lemma nonpositive_id_never_found_witness :
  status_code
    (fst (serve (read_account 0)
            (snd (run [mkCall a_day POST AccountsPath (json_request rofrano);
                       mkCall a_day POST AccountsPath (json_request jeronimo);
                       mkCall a_day DELETE (AccountPath 1) (json_request JNull)]
                    empty_store)))) = 404.
Proof.
  apply (nonpositive_id_never_found
           [mkCall a_day POST AccountsPath (json_request rofrano);
            mkCall a_day POST AccountsPath (json_request jeronimo);
            mkCall a_day DELETE (AccountPath 1) (json_request JNull)] 0).
  lia.
Defined.

(** X3: only [POST /accounts], [PUT /accounts/<id>] and
    [DELETE /accounts/<id>] can change the table: every other request, a
    read, a listing or a method the path does not take, leaves it as it
    was. *)
Theorem only_writes_change_table (today : date) (m : method) (p : path)
    (req : request) (st : Store) :
  writes m p = false ->
  snd (serve (route today m p req) st) = st.
Proof.
  destruct p as [| | |k]; destruct m; cbn [writes route];
    intros H; try discriminate H; try reflexivity.
  unfold serve.
  destruct (persisted k st) as [found|] eqn:Hf.
  - now rewrite (read_account_found k st found Hf).
  - now rewrite (proj1 (read_account_absent k st Hf)).
Qed.

(** A read of account 1 and a POST to its path, which the path does not
    take. *)
Lemma only_writes_change_table_witness :
  snd (serve (route a_day GET (AccountPath 1) (json_request JNull)) one_account)
    = one_account /\
  snd (serve (route a_day POST (AccountPath 1) (json_request rofrano)) one_account)
    = one_account.
Proof.
  split.
  - apply only_writes_change_table. reflexivity.
  - apply only_writes_change_table. reflexivity.
Defined.

(** ** Updating: errors, repetition and what follows *)

Lemma serve_update_cases (today : date) (k : Z) (req : request) (st : Store) :
  (status_code (fst (serve (update_accounts today k req) st)) = 404 /\
   snd (serve (update_accounts today k req) st) = st /\
   persisted k st = None) \/
  (status_code (fst (serve (update_accounts today k req) st)) = 400 /\
   snd (serve (update_accounts today k req) st) = st /\
   exists found, persisted k st = Some found) \/
  (exists found data updated,
     persisted k st = Some found /\ json_body req = Some data /\
     deserialize found data today = Ok updated /\ id updated = Some k /\
     serve (update_accounts today k req) st =
       (mkResponse (JsonBody (serialize updated)) 200 [],
        mkStore (map (fun r => if has_id k r then updated else r) (rows st))
          (next_id st))).
Proof.
  unfold serve.
  destruct (update_accounts_cases today k req st)
    as [[Hf ->]|[[found [Hf [_ ->]]]|[[found [data [msg [Hf [_ [_ ->]]]]]]
       |[found [data [updated [Hf [Hb [Hd [Hid ->]]]]]]]]]]; cbn.
  - left. now repeat split.
  - right. left. repeat split. now exists found.
  - right. left. repeat split. now exists found.
  - right. right. exists found, data, updated. now repeat split.
Qed.

(** X5: after an update answered 200, a read of the same id is answered 200
    with the very body the update returned. *)
Theorem read_after_update (today : date) (k : Z) (req : request) (st : Store) :
  status_code (fst (serve (update_accounts today k req) st)) = 200 ->
  serve (read_account k) (snd (serve (update_accounts today k req) st)) =
    (mkResponse (response_body (fst (serve (update_accounts today k req) st)))
       200 [],
     snd (serve (update_accounts today k req) st)).
Proof.
  destruct (serve_update_cases today k req st)
    as [[E _]|[[E _]|[found [data [updated [Hf [_ [_ [Hid E]]]]]]]]].
  - rewrite E. discriminate.
  - rewrite E. discriminate.
  - rewrite E. cbn [fst snd response_body]. intros _.
    unfold serve at 1.
    rewrite (read_account_found k _ updated); [reflexivity|].
    unfold persisted. cbn [rows].
    apply find_replace with (a := found); [exact Hf|].
    unfold has_id. rewrite Hid. apply Z.eqb_refl.
Qed.

Lemma read_after_update_witness :
  serve (read_account 1)
    (snd (serve (update_accounts a_day 1 (json_request jeronimo)) one_account)) =
    (mkResponse
       (response_body
          (fst (serve (update_accounts a_day 1 (json_request jeronimo)) one_account)))
       200 [],
     snd (serve (update_accounts a_day 1 (json_request jeronimo)) one_account)).
Proof.
  apply read_after_update. reflexivity.
Defined.

(** X6: an update is idempotent: the same [PUT] served a second time, on the
    same day, gets the same response and leaves the table as the first one
    left it. *)
Theorem update_accounts_idempotent (today : date) (k : Z) (req : request)
    (st : Store) :
  serve (update_accounts today k req)
    (snd (serve (update_accounts today k req) st)) =
  serve (update_accounts today k req) st.
Proof.
  destruct (serve_update_cases today k req st)
    as [[_ [Hs _]]|[[_ [Hs _]]|[found [data [updated [Hf [Hb [Hd [Hid E]]]]]]]]].
  - now rewrite Hs.
  - now rewrite Hs.
  - rewrite E. cbn [snd].
    assert (has_id k updated = true) as Hu
      by (unfold has_id; rewrite Hid; apply Z.eqb_refl).
    assert (persisted k
              (mkStore (map (fun r => if has_id k r then updated else r) (rows st))
                 (next_id st)) = Some updated) as Hf'
      by (unfold persisted; cbn [rows];
          now apply find_replace with (a := found)).
    assert (deserialize updated data today = Ok updated) as Hd'.
    { rewrite (deserialize_same_id updated found data today); [exact Hd|].
      rewrite Hid. symmetry. exact (find_has_id k _ _ Hf). }
    unfold serve.
    rewrite (update_accounts_ok today k req _ updated updated data Hf' Hb Hd').
    cbn [rows next_id handle]. now rewrite (replace_twice k updated _ Hu).
Qed.

(** ** Deleting: what follows *)

(** X7: once an id has been deleted, a read of it aborts with 404 and the
    description that names it, and an update of it aborts with 404, whatever
    the table held and whatever the body; neither changes the table. *)
Theorem not_found_after_delete (today : date) (k : Z) (req : request)
    (st : Store) :
  read_account k (snd (serve (delete_account k) st)) =
    (Err (HTTPException 404
            (Some ("Account with id " ++ str_int k ++ " could not be found :("))),
     snd (serve (delete_account k) st)) /\
  update_accounts today k req (snd (serve (delete_account k) st)) =
    (Err (HTTPException 404 None), snd (serve (delete_account k) st)).
Proof.
  assert (persisted k (snd (serve (delete_account k) st)) = None) as Hf
    by (rewrite delete_account_spec; apply find_removed).
  split.
  - exact (proj1 (read_account_absent k _ Hf)).
  - exact (update_accounts_absent today k req _ Hf).
Qed.

(** ** One account at a time *)

(** X8: a request about one account leaves every other account as it was:
    an update or a deletion of id [k] does not change what is persisted
    under another id [j], and a creation does not change what is persisted
    under any id but the one it gives out. *)
Theorem other_accounts_untouched (today : date) (j k : Z) (req : request)
    (st : Store) :
  (j <> k ->
   persisted j (snd (serve (update_accounts today k req) st)) = persisted j st /\
   persisted j (snd (serve (delete_account k) st)) = persisted j st) /\
  (j <> next_id st ->
   persisted j (snd (serve (create_accounts today req) st)) = persisted j st).
Proof.
  split.
  - intros Hjk. split.
    + destruct (serve_update_cases today k req st)
        as [[_ [Hs _]]|[[_ [Hs _]]|[found [data [updated [_ [_ [_ [Hid E]]]]]]]]].
      * now rewrite Hs.
      * now rewrite Hs.
      * rewrite E. unfold persisted. cbn [snd rows].
        apply find_replace_other; [exact Hjk|].
        unfold has_id. rewrite Hid. apply Z.eqb_refl.
    + rewrite delete_account_spec. unfold persisted. cbn [snd rows].
      now apply find_filter_other.
  - intros Hj. unfold serve.
    destruct (create_accounts_outcome today req st); cbn [snd]; try reflexivity.
    unfold persisted. cbn [rows]. apply find_snoc_other.
    unfold has_id. cbn. now apply Z.eqb_neq.
Qed.

(** Account 1 while account 2 is created, updated and deleted. *)
Lemma other_accounts_untouched_witness :
  persisted 1 (snd (serve (update_accounts a_day 2 (json_request jeronimo))
                      one_account)) = persisted 1 one_account /\
  persisted 1 (snd (serve (delete_account 2) one_account)) =
    persisted 1 one_account /\
  persisted 1 (snd (serve (create_accounts a_day (json_request jeronimo))
                      one_account)) = persisted 1 one_account.
Proof.
  split; [|split].
  - apply (proj1 (other_accounts_untouched a_day 1 2 (json_request jeronimo)
                    one_account)). lia.
  - apply (proj1 (other_accounts_untouched a_day 1 2 (json_request jeronimo)
                    one_account)). lia.
  - apply (proj2 (other_accounts_untouched a_day 1 2 (json_request jeronimo)
                    one_account)). vm_compute. discriminate.
Defined.

(** ** Creating: what the test suite posts, and what follows *)

(** Reading back a serialized account gives its fields. *)
Lemma deserialize_serialize (self a : Account) (today : date) :
  valid_date (date_joined a) = true ->
  deserialize self (serialize a) today =
    Ok (mkAccount (id self) (name a) (email a) (address a) (phone_number a)
          (date_joined a)).
Proof.
  intros Hv.
  unfold deserialize, required_string, required_phone, optional_date.
  rewrite get_serialize_name, get_serialize_email, get_serialize_address,
    get_serialize_phone_number, get_serialize_date_joined.
  now rewrite (fromisoformat_isoformat _ Hv).
Qed.

Lemma serve_create_serialized (today : date) (a : Account) (st : Store) :
  valid_date (date_joined a) = true ->
  serve (create_accounts today (json_request (serialize a))) st =
    (mkResponse (JsonBody (serialize (set_id (next_id st) a))) 201
       [("Location", "/")],
     mkStore (rows st ++ [set_id (next_id st) a]) (next_id st + 1)).
Proof.
  intros Hv. unfold serve.
  rewrite (create_accounts_ok today (json_request (serialize a)) (serialize a)
             _ st eq_refl eq_refl
             (deserialize_serialize (Account_new today) a today Hv)).
  reflexivity.
Qed.

(** X9: an account posted as its own serialization, as the test suite does,
    is answered 201 with a Location header and with that serialization back,
    only the id being the new one; the account is appended to the table
    under that id.  The date of the account has to be a calendar date. *)
Theorem create_serialized_account (today : date) (a : Account) (st : Store) :
  valid_date (date_joined a) = true ->
  status_code
    (fst (serve (create_accounts today (json_request (serialize a))) st)) = 201 /\
  header "Location"
    (fst (serve (create_accounts today (json_request (serialize a))) st)) <> None /\
  response_body
    (fst (serve (create_accounts today (json_request (serialize a))) st)) =
    JsonBody (serialize (set_id (next_id st) a)) /\
  snd (serve (create_accounts today (json_request (serialize a))) st) =
    mkStore (rows st ++ [set_id (next_id st) a]) (next_id st + 1).
Proof.
  intros Hv. rewrite (serve_create_serialized today a st Hv). cbn.
  repeat split. discriminate.
Qed.

Lemma create_serialized_account_witness :
  response_body
    (fst (serve (create_accounts a_day (json_request (serialize rofrano_account)))
            one_account)) =
    JsonBody (serialize (set_id 2 rofrano_account)).
Proof.
  apply (create_serialized_account a_day rofrano_account one_account).
  reflexivity.
Defined.

Lemma take_id_serialize (k : Z) (a b : Account) :
  take_id (serialize (set_id k a)) b = Some (set_id k b).
Proof. reflexivity. Qed.

(** X10: the helper of the test suite never fails its assertion on accounts
    whose dates are calendar dates: it returns them numbered with
    consecutive ids from the next id of the sequence, and leaves them
    appended to the table in that order. *)
Theorem create_accounts_helper_numbers (today : date) (made : list Account)
    (st : Store) :
  Forall (fun a => valid_date (date_joined a) = true) made ->
  _create_accounts today made st =
    (Some (number_from (next_id st) made),
     mkStore (rows st ++ number_from (next_id st) made)
       (next_id st + Z.of_nat (List.length made))).
Proof.
  revert st. induction made as [|a rest IH]; intros st HF.
  - cbn. rewrite app_nil_r, Z.add_0_r. now destruct st.
  - inversion HF as [|? ? Ha Hrest]; subst.
    cbn [_create_accounts].
    rewrite (serve_create_serialized today a st Ha).
    cbn [status_code response_body]. change (201 =? HTTP_201_CREATED) with true.
    cbn iota. rewrite take_id_serialize.
    rewrite (IH _ Hrest). cbn [rows next_id number_from List.length].
    rewrite <- app_assoc. cbn [app].
    rewrite Nat2Z.inj_succ.
    replace (next_id st + 1 + Z.of_nat (List.length rest))
      with (next_id st + Z.succ (Z.of_nat (List.length rest))) by lia.
    reflexivity.
Qed.

Lemma create_accounts_helper_numbers_witness :
  _create_accounts a_day [rofrano_account; rofrano_account] empty_store =
    (Some (number_from 1 [rofrano_account; rofrano_account]),
     mkStore (number_from 1 [rofrano_account; rofrano_account]) 3).
Proof.
  apply (create_accounts_helper_numbers a_day
           [rofrano_account; rofrano_account] empty_store).
  repeat constructor.
Defined.

(** What a creation answered 201 has done. *)
Lemma serve_create_201 (today : date) (req : request) (st : Store) :
  status_code (fst (serve (create_accounts today req) st)) = 201 ->
  exists acc,
    serve (create_accounts today req) st =
      (mkResponse (JsonBody (serialize (set_id (next_id st) acc))) 201
         [("Location", "/")],
       mkStore (rows st ++ [set_id (next_id st) acc]) (next_id st + 1)).
Proof.
  unfold serve.
  destruct (create_accounts_outcome today req st) as [data acc _ _ _| | |];
    cbn [fst snd handle]; intros E; try discriminate E.
  now exists acc.
Qed.

(** X11: after a creation answered 201, the listing is the listing from
    before followed by the body the creation returned. *)
Theorem list_after_create (today : date) (req : request) (st : Store) :
  status_code (fst (serve (create_accounts today req) st)) = 201 ->
  exists before created,
    response_body (fst (serve list_accounts st)) = JsonBody (JArr before) /\
    response_body (fst (serve (create_accounts today req) st)) =
      JsonBody created /\
    fst (serve list_accounts (snd (serve (create_accounts today req) st))) =
      mkResponse (JsonBody (JArr (before ++ [created]))) 200 [].
Proof.
  intros E. destruct (serve_create_201 today req st E) as [acc ->].
  exists (map serialize (rows st)), (serialize (set_id (next_id st) acc)).
  rewrite !list_accounts_spec. cbn [fst snd rows response_body].
  split; [reflexivity|]. split; [reflexivity|].
  now rewrite map_app.
Qed.

Lemma list_after_create_witness :
  exists before created,
    response_body (fst (serve list_accounts one_account)) = JsonBody (JArr before) /\
    response_body
      (fst (serve (create_accounts a_day (json_request jeronimo)) one_account)) =
      JsonBody created /\
    fst (serve list_accounts
           (snd (serve (create_accounts a_day (json_request jeronimo)) one_account))) =
      mkResponse (JsonBody (JArr (before ++ [created]))) 200 [].
Proof.
  apply list_after_create. reflexivity.
Defined.

(** X12: on a table that satisfies the invariant, deleting the account a
    creation has just made undoes the creation: the rows, and so the
    listing, are the ones from before, and the id is no longer found. *)
Theorem create_then_delete (today : date) (req : request) (st : Store) :
  store_wf st = true ->
  status_code (fst (serve (create_accounts today req) st)) = 201 ->
  exists k created,
    response_body (fst (serve (create_accounts today req) st)) =
      JsonBody created /\
    get "id" created = Some (JNum k) /\
    rows (snd (serve (delete_account k)
                 (snd (serve (create_accounts today req) st)))) = rows st /\
    fst (serve list_accounts
           (snd (serve (delete_account k)
                   (snd (serve (create_accounts today req) st))))) =
      fst (serve list_accounts st) /\
    persisted k (snd (serve (delete_account k)
                        (snd (serve (create_accounts today req) st)))) = None.
Proof.
  intros Hwf E. destruct (serve_create_201 today req st E) as [acc ->].
  exists (next_id st), (serialize (set_id (next_id st) acc)).
  cbn [fst snd response_body].
  split; [reflexivity|]. split; [apply get_serialize_id|].
  assert (rows (snd (serve (delete_account (next_id st))
                       (mkStore (rows st ++ [set_id (next_id st) acc])
                          (next_id st + 1)))) = rows st) as Hrows.
  { rewrite delete_account_spec. cbn [snd rows].
    rewrite filter_app, (filter_absent _ _ (next_id_fresh st Hwf)).
    cbn [filter]. rewrite has_id_set_id. cbn. apply app_nil_r. }
  split; [exact Hrows|]. split.
  - rewrite !list_accounts_spec. cbn [fst]. now rewrite Hrows.
  - unfold persisted. rewrite Hrows. exact (next_id_fresh st Hwf).
Qed.

Lemma create_then_delete_witness :
  exists k created,
    response_body
      (fst (serve (create_accounts a_day (json_request jeronimo)) one_account)) =
      JsonBody created /\
    get "id" created = Some (JNum k) /\
    rows (snd (serve (delete_account k)
                 (snd (serve (create_accounts a_day (json_request jeronimo))
                         one_account)))) = rows one_account /\
    fst (serve list_accounts
           (snd (serve (delete_account k)
                   (snd (serve (create_accounts a_day (json_request jeronimo))
                           one_account))))) =
      fst (serve list_accounts one_account) /\
    persisted k (snd (serve (delete_account k)
                        (snd (serve (create_accounts a_day (json_request jeronimo))
                                one_account)))) = None.
Proof.
  apply create_then_delete; reflexivity.
Defined.

(** ** The content-type check for any media type *)

(** X13: for any expected media type, the check passes exactly when the
    header is that very string and is not empty, so that a check for the
    empty media type never passes; otherwise it aborts with 415 and a
    description that names the expected type.  The table is never
    changed. *)
Theorem check_content_type_any (media_type : string) (req : request)
    (st : Store) :
  (check_content_type media_type req st = (Ok tt, st) <->
   content_type_header req = Some media_type /\ media_type <> EmptyString) /\
  (check_content_type media_type req st = (Ok tt, st) \/
   check_content_type media_type req st =
     (Err (HTTPException 415 (Some ("Content-Type must be " ++ media_type))), st)).
Proof.
  unfold check_content_type.
  destruct (content_type_header req) as [c|].
  - destruct (String.eqb_spec c media_type) as [<-|Hm];
      destruct (String.eqb_spec c EmptyString) as [Hc|Hc]; cbn.
    + split; [|now right]. split; [discriminate|]. intros [_ H]. now contradiction H.
    + split; [|now left]. split; [now split|reflexivity].
    + split; [|now right]. split; [discriminate|]. intros [[= H] _]. now contradiction Hm.
    + split; [|now right]. split; [discriminate|]. intros [[= H] _]. now contradiction Hm.
  - split; [|now right]. split; [discriminate|]. intros [H _]. discriminate H.
Qed.

(** The check for the empty media type against an empty header, and the
    check for text/html against that header. *)
Lemma check_content_type_any_witness :
  check_content_type EmptyString (mkRequest (Some EmptyString) None) empty_store
    <> (Ok tt, empty_store) /\
  check_content_type "text/html" (mkRequest (Some "text/html") None) empty_store
    = (Ok tt, empty_store).
Proof.
  split.
  - intros H.
    apply (proj1 (proj1 (check_content_type_any EmptyString
                           (mkRequest (Some EmptyString) None) empty_store))) in H.
    now apply (proj2 H).
  - apply (proj2 (proj1 (check_content_type_any "text/html"
                           (mkRequest (Some "text/html") None) empty_store))).
    split; [reflexivity|discriminate].
Defined.

(** ** Counting the accounts *)

Lemma filter_removes_one (k : Z) (a : Account) (l : list Account) :
  NoDup (map id l) -> List.find (has_id k) l = Some a ->
  S (List.length (filter (fun r => negb (has_id k r)) l)) = List.length l.
Proof.
  induction l as [|y l IH]; cbn; intros Hnd Hf; [discriminate|].
  inversion Hnd as [|? ? Hy Hl]; subst.
  destruct (has_id k y) eqn:Hk; cbn.
  - f_equal. rewrite filter_absent; [reflexivity|].
    destruct (List.find (has_id k) l) as [b|] eqn:Hb; [|reflexivity].
    exfalso. apply Hy.
    pose proof (find_has_id k _ _ Hb) as Hidb.
    apply find_some in Hb as [Hin _].
    assert (id y = Some k) as ->.
    { unfold has_id in Hk. destruct (id y) as [j|]; [|discriminate].
      apply Z.eqb_eq in Hk. now subst. }
    rewrite <- Hidb. now apply in_map.
  - f_equal. now apply IH.
Qed.

(** X14: whatever requests have been served since the table was empty,
    deleting an id that is persisted removes exactly one account: the
    listing gets shorter by one. *)
Theorem delete_removes_exactly_one (calls : list call) (k : Z) (found : Account) :
  persisted k (snd (run calls empty_store)) = Some found ->
  S (List.length
       (rows (snd (serve (delete_account k) (snd (run calls empty_store)))))) =
  List.length (rows (snd (run calls empty_store))).
Proof.
  intros Hf.
  destruct (run_keeps_invariant calls empty_store) as [_ Hnd].
  - split; [reflexivity|constructor].
  - rewrite delete_account_spec. cbn [snd rows].
    now apply filter_removes_one with (a := found).
Qed.

(** Two accounts created, the first one deleted. *)
Lemma delete_removes_exactly_one_witness :
  S (List.length
       (rows (snd (serve (delete_account 1)
                     (snd (run [mkCall a_day POST AccountsPath (json_request rofrano);
                                mkCall a_day POST AccountsPath (json_request jeronimo)]
                             empty_store)))))) = 2%nat.
Proof.
  apply (delete_removes_exactly_one
           [mkCall a_day POST AccountsPath (json_request rofrano);
            mkCall a_day POST AccountsPath (json_request jeronimo)]
           1 rofrano_account).
  reflexivity.
Defined.

(** X15: an update never adds or removes an account and never changes an
    id: whatever its outcome, the ids in the table are the same, row by
    row, and the next id of the sequence is the same.  In particular an
    update of an id that is not persisted does not create it. *)
Theorem update_keeps_ids (today : date) (k : Z) (req : request) (st : Store) :
  ids (snd (serve (update_accounts today k req) st)) = ids st /\
  next_id (snd (serve (update_accounts today k req) st)) = next_id st.
Proof.
  destruct (serve_update_cases today k req st)
    as [[_ [Hs _]]|[[_ [Hs _]]|[found [data [updated [_ [_ [_ [Hid E]]]]]]]]].
  - now rewrite Hs.
  - now rewrite Hs.
  - rewrite E. cbn [snd next_id]. split; [|reflexivity].
    unfold ids. cbn [rows]. now apply ids_replace.
Qed.
